(** * Configuration builders of ml-auto-solutions, embedded in Rocq

    The development follows the Python sources:
    - [dags/vm_resource.py]: projects, zones, TPU versions, runtime
      versions, networks and docker images;
    - [xlml/apis/test_config.py]: the test configuration records and the
      scripts they generate;
    - [dags/inference/configs/maxdiffusion_inference_gce_config.py]: the
      maxdiffusion nightly builder;
    - [dags/inference/mor_jetstream_benchmark_serving.py]: the sweep DAG.

    Python values that the sources handle without declared types are kept
    dynamic ([pyval]); a Python exception is an explicit result ([Raise]). *)

From Stdlib Require Import String Ascii List ZArith Lia Bool Arith.
From Stdlib Require Import DecimalString DecimalNat DecimalZ.
Import ListNotations.
Set Warnings "-register-all".
Local Open Scope list_scope.
Local Open Scope string_scope.

(* ===================================================================== *)
(** ** Python runtime: exceptions                                         *)
(* ===================================================================== *)

Module Py.

(** The exceptions the modelled code can raise.  [UnboundLocalError] is a
    subclass of [NameError] in Python. *)
Inductive exn : Type :=
| KeyError (key : string)
| ValueError
| TypeError
| AttributeError
| UnboundLocalError (name : string)
| JSONDecodeError.

Definition isinstance_NameError (e : exn) : bool :=
  match e with
  | UnboundLocalError _ => true
  | _ => false
  end.

Inductive result (A : Type) : Type :=
| Ok (a : A)
| Raise (e : exn).
Arguments Ok {A} a.
Arguments Raise {A} e.

Definition bind {A B : Type} (r : result A) (k : A -> result B) : result B :=
  match r with
  | Ok a => k a
  | Raise e => Raise e
  end.

Definition is_ok {A : Type} (r : result A) : bool :=
  match r with
  | Ok _ => true
  | Raise _ => false
  end.

(** [for x in l: body], collecting what each run of the body produces and
    stopping at the first exception. *)
Fixpoint for_each {A B : Type} (l : list A) (body : A -> result (list B))
  : result (list B) :=
  match l with
  | [] => Ok []
  | x :: l' =>
      bind (body x) (fun ys =>
      bind (for_each l' body) (fun zs => Ok (ys ++ zs)%list))
  end.

End Py.

Import Py.

Declare Scope py_scope.
Delimit Scope py_scope with py.
Notation "x <- c ;; k" := (bind c (fun x => k))
  (at level 61, c at next level, right associativity) : py_scope.
Notation "' pat <- c ;; k" := (bind c (fun x => match x with pat => k end))
  (at level 61, pat pattern, c at next level, right associativity) : py_scope.
Local Open Scope py_scope.

(* ===================================================================== *)
(** ** Python runtime: strings                                            *)
(* ===================================================================== *)

Definition newline : string := String (ascii_of_nat 10) EmptyString.

(** [sep.join(items)] for a sequence of strings. *)
Fixpoint str_join (sep : string) (items : list string) : string :=
  match items with
  | [] => ""
  | [x] => x
  | x :: rest => x ++ sep ++ str_join sep rest
  end.

(** The characters of a string, each as a one-character string: what
    iterating over a [str] yields. *)
Fixpoint str_chars (s : string) : list string :=
  match s with
  | EmptyString => []
  | String c s' => String c EmptyString :: str_chars s'
  end.

(** [s.split(sep)] for a one-character separator: the pieces between the
    occurrences of [sep], empty pieces included. *)
Fixpoint str_split (sep : ascii) (s : string) : list string :=
  match s with
  | EmptyString => [""]
  | String c s' =>
      if Ascii.eqb c sep then "" :: str_split sep s'
      else match str_split sep s' with
           | [] => [String c EmptyString]
           | p :: ps => String c p :: ps
           end
  end.

(** [s[:n]]. *)
Fixpoint str_take (n : nat) (s : string) : string :=
  match n, s with
  | O, _ => ""
  | _, EmptyString => ""
  | S n', String c s' => String c (str_take n' s')
  end.

(** [str(z)] for an [int]. *)
Definition str_of_int (z : Z) : string := NilZero.string_of_int (Z.to_int z).

(** Decimal digits of a natural number, without padding. *)
Definition str_of_nat (n : nat) : string := NilZero.string_of_uint (Nat.to_uint n).

(** [%02d]-style formatting: at least two digits, padded with a zero. *)
Definition pad2 (n : nat) : string :=
  if Nat.ltb n 10 then "0" ++ str_of_nat n else str_of_nat n.

(* ===================================================================== *)
(** ** [dags/vm_resource.py]: enumerations and network constants          *)
(* ===================================================================== *)

Inductive Project : Type :=
| CLOUD_ML_AUTO_SOLUTIONS
| CLOUD_ML_BENCHMARKING
| TPU_PROD_ENV_MULTIPOD
| TPU_PROD_ENV_AUTOMATED
| CLOUD_TPU_MULTIPOD_DEV
| SUPERCOMPUTER_TESTING
| CLOUD_TPU_INFERENCE_TEST
| TPU_PROD_ENV_LARGE_ADHOC.

Definition Project_value (p : Project) : string :=
  match p with
  | CLOUD_ML_AUTO_SOLUTIONS => "cloud-ml-auto-solutions"
  | CLOUD_ML_BENCHMARKING => "cloud-ml-benchmarking"
  | TPU_PROD_ENV_MULTIPOD => "tpu-prod-env-multipod"
  | TPU_PROD_ENV_AUTOMATED => "tpu-prod-env-automated"
  | CLOUD_TPU_MULTIPOD_DEV => "cloud-tpu-multipod-dev"
  | SUPERCOMPUTER_TESTING => "supercomputer-testing"
  | CLOUD_TPU_INFERENCE_TEST => "cloud-tpu-inference-test"
  | TPU_PROD_ENV_LARGE_ADHOC => "tpu-prod-env-large-adhoc"
  end.

Inductive Zone : Type :=
| US_CENTRAL1_A
| US_CENTRAL1_B
| US_CENTRAL2_B
| US_CENTRAL1_C
| US_CENTRAL1_F
| US_EAST1_C
| US_EAST1_D
| US_EAST4_A
| US_EAST5_A
| US_WEST4_B
| US_WEST1_C
| AUSTRALIA_SOUTHEAST1_C.

Definition Zone_value (z : Zone) : string :=
  match z with
  | US_CENTRAL1_A => "us-central1-a"
  | US_CENTRAL1_B => "us-central1-b"
  | US_CENTRAL2_B => "us-central2-b"
  | US_CENTRAL1_C => "us-central1-c"
  | US_CENTRAL1_F => "us-central1-f"
  | US_EAST1_C => "us-east1-c"
  | US_EAST1_D => "us-east1-d"
  | US_EAST4_A => "us-east4-a"
  | US_EAST5_A => "us-east5-a"
  | US_WEST4_B => "us-west4-b"
  | US_WEST1_C => "us-west1-c"
  | AUSTRALIA_SOUTHEAST1_C => "australia-southeast1-c"
  end.

Inductive TpuVersion : Type :=
| V2
| V3
| V4
| V5E
| V5P
| TRILLIUM.

Definition TpuVersion_value (v : TpuVersion) : string :=
  match v with
  | V2 => "2"
  | V3 => "3"
  | V4 => "4"
  | V5E => "5litepod"
  | V5P => "5p"
  | TRILLIUM => "6e"
  end.

Definition TpuVersion_name (v : TpuVersion) : string :=
  match v with
  | V2 => "V2"
  | V3 => "V3"
  | V4 => "V4"
  | V5E => "V5E"
  | V5P => "V5P"
  | TRILLIUM => "TRILLIUM"
  end.

Definition TpuVersion_eqb (a b : TpuVersion) : bool :=
  match a, b with
  | V2, V2 | V3, V3 | V4, V4 | V5E, V5E | V5P, V5P | TRILLIUM, TRILLIUM => true
  | _, _ => false
  end.

Definition TpuVersion_members : list TpuVersion :=
  [V2; V3; V4; V5E; V5P; TRILLIUM].

(** [TpuVersion(value)]: the member with that value, [ValueError] when
    there is none. *)
Definition TpuVersion_of_value (s : string) : result TpuVersion :=
  match find (fun v => String.eqb (TpuVersion_value v) s) TpuVersion_members with
  | Some v => Ok v
  | None => Raise ValueError
  end.

Inductive RuntimeVersion : Type :=
| TPU_VM_TF_NIGHTLY
| TPU_VM_TF_NIGHTLY_POD
| TPU_VM_TF_STABLE_SE
| TPU_VM_TF_STABLE_POD_SE
| TPU_VM_TF_STABLE_PJRT
| TPU_VM_TF_STABLE_POD_PJRT
| TPU_VM_TF_V5P_ALPHA
| TPU_UBUNTU2204_BASE
| TPU_VM_V4_BASE
| V2_ALPHA_TPUV5_LITE
| V2_ALPHA_TPUV5.

Definition RuntimeVersion_value (r : RuntimeVersion) : string :=
  match r with
  | TPU_VM_TF_NIGHTLY => "tpu-vm-tf-nightly"
  | TPU_VM_TF_NIGHTLY_POD => "tpu-vm-tf-nightly-pod"
  | TPU_VM_TF_STABLE_SE => "tpu-vm-tf-2.16.0-se"
  | TPU_VM_TF_STABLE_POD_SE => "tpu-vm-tf-2.16.0-pod-se"
  | TPU_VM_TF_STABLE_PJRT => "tpu-vm-tf-2.16.0-pjrt"
  | TPU_VM_TF_STABLE_POD_PJRT => "tpu-vm-tf-2.16.0-pod-pjrt"
  | TPU_VM_TF_V5P_ALPHA => "tpu-vm-tf-v5p-alpha-sc"
  | TPU_UBUNTU2204_BASE => "tpu-ubuntu2204-base"
  | TPU_VM_V4_BASE => "tpu-vm-v4-base"
  | V2_ALPHA_TPUV5_LITE => "v2-alpha-tpuv5-lite"
  | V2_ALPHA_TPUV5 => "v2-alpha-tpuv5"
  end.

Definition V5_NETWORKS_PREFIX : string := "projects/tpu-prod-env-automated".
Definition V5_NETWORKS : string := V5_NETWORKS_PREFIX ++ "/global/networks/mas-test".
Definition V5E_SUBNETWORKS : string :=
  V5_NETWORKS_PREFIX ++ "/regions/us-east1/subnetworks/mas-test".
Definition V5P_SUBNETWORKS : string :=
  V5_NETWORKS_PREFIX ++ "/regions/us-east5/subnetworks/mas-test".
Definition V6E_SUBNETWORKS : string :=
  V5_NETWORKS_PREFIX ++ "/regions/us-central2/subnetworks/mas-test".

(** *** Docker images

    Every member but [XPK_JAX_TEST] is built, when the module is imported,
    from [datetime.datetime.today().strftime(...)]: the value depends on
    the day of the import. *)

Record date : Type := mkDate { year : nat; month : nat; day : nat }.


(** [strftime('%Y%m%d')]: the year in decimal, the month and the day on
    two digits. *)
Definition strftime_Ymd (d : date) : string :=
  str_of_nat (year d) ++ pad2 (month d) ++ pad2 (day d).

(** [strftime('%Y-%m-%d')]. *)
Definition strftime_Y_m_d (d : date) : string :=
  str_of_nat (year d) ++ "-" ++ pad2 (month d) ++ "-" ++ pad2 (day d).




(* ===================================================================== *)
(** ** Python runtime: dynamic values and dictionaries                    *)
(* ===================================================================== *)

(** The values that flow through the untyped parts of the sources.  A
    [float] is carried by its [repr] (the DAG only stores and forwards
    floats); strings are ASCII. *)
Inductive pyval : Type :=
| VNone
| VBool (b : bool)
| VInt (z : Z)
| VFloat (repr : string)
| VStr (s : string)
| VList (items : list pyval)
| VTuple (items : list pyval)
| VDict (entries : list (string * pyval))
| VTpuVersion (v : TpuVersion).

(** A [dict] with string keys, in insertion order. *)
Definition dict : Type := list (string * pyval).

(** [d[k]]. *)
Fixpoint dict_get (d : dict) (k : string) : result pyval :=
  match d with
  | [] => Raise (KeyError k)
  | (k', v) :: d' => if String.eqb k' k then Ok v else dict_get d' k
  end.

(** [d[k] = v]: an existing key keeps its position, a new key goes last. *)
Fixpoint dict_set (d : dict) (k : string) (v : pyval) : dict :=
  match d with
  | [] => [(k, v)]
  | (k', v') :: d' =>
      if String.eqb k' k then (k', v) :: d' else (k', v') :: dict_set d' k v
  end.

(** A dict display [{k1: v1, k2: v2, ...}]. *)
Definition dict_of (items : list (string * pyval)) : dict :=
  fold_left (fun d kv => dict_set d (fst kv) (snd kv)) items [].

(** [d1 | d2]: the items of [d1], updated and extended by those of [d2]. *)
Definition dict_union (d1 d2 : dict) : dict :=
  fold_left (fun d kv => dict_set d (fst kv) (snd kv)) d2 d1.

Definition dict_has (d : dict) (k : string) : bool :=
  existsb (fun kv => String.eqb (fst kv) k) d.

(** [x in l] for a list of strings. *)
Definition str_in (x : string) (l : list string) : bool :=
  existsb (String.eqb x) l.

Definition hex_digit (n : nat) : ascii :=
  match n with
  | 0 => "0" | 1 => "1" | 2 => "2" | 3 => "3" | 4 => "4" | 5 => "5"
  | 6 => "6" | 7 => "7" | 8 => "8" | 9 => "9" | 10 => "a" | 11 => "b"
  | 12 => "c" | 13 => "d" | 14 => "e" | _ => "f"
  end%char.

Definition dquote : ascii := ascii_of_nat 34.
Definition squote : ascii := ascii_of_nat 39.

Definition str_contains_char (c : ascii) (s : string) : bool :=
  existsb (Ascii.eqb c) (list_ascii_of_string s).

(** [repr(s)] for an ASCII [str]: single quotes unless the string holds a
    single quote and no double quote. *)
Definition repr_char (quote : ascii) (c : ascii) : string :=
  let n := nat_of_ascii c in
  if Ascii.eqb c "\" then "\\"
  else if Ascii.eqb c quote then String "\" (String quote "")
  else if Nat.eqb n 9 then "\t"
  else if Nat.eqb n 10 then "\n"
  else if Nat.eqb n 13 then "\r"
  else if Nat.ltb n 32 || Nat.leb 127 n
       then String "\" (String "x" (String (hex_digit (n / 16))
                                    (String (hex_digit (n mod 16)) "")))
  else String c "".

Definition repr_str (s : string) : string :=
  let quote : ascii :=
    if str_contains_char squote s && negb (str_contains_char dquote s)
    then dquote else squote in
  String quote (String.concat "" (map (repr_char quote) (list_ascii_of_string s)))
  ++ String quote "".

(** [repr(v)]. *)
Fixpoint py_repr (v : pyval) : string :=
  match v with
  | VNone => "None"
  | VBool true => "True"
  | VBool false => "False"
  | VInt z => str_of_int z
  | VFloat r => r
  | VStr s => repr_str s
  | VList items => "[" ++ str_join ", " (map py_repr items) ++ "]"
  | VTuple [x] => "(" ++ py_repr x ++ ",)"
  | VTuple items => "(" ++ str_join ", " (map py_repr items) ++ ")"
  | VDict entries =>
      "{" ++ str_join ", "
               (map (fun kv => match kv with
                               | (k, x) => repr_str k ++ ": " ++ py_repr x
                               end) entries) ++ "}"
  | VTpuVersion t =>
      "<TpuVersion." ++ TpuVersion_name t ++ ": " ++ repr_str (TpuVersion_value t) ++ ">"
  end.

(** [str(v)], which is also how an f-string formats [{v}]. *)
Definition py_str (v : pyval) : string :=
  match v with
  | VStr s => s
  | VTpuVersion t => "TpuVersion." ++ TpuVersion_name t
  | _ => py_repr v
  end.

(** Truth value of [v], as [if v:] tests it. *)
Definition py_truthy (v : pyval) : bool :=
  match v with
  | VNone => false
  | VBool b => b
  | VInt z => negb (Z.eqb z 0)
  | VFloat r => negb (String.eqb r "0.0" || String.eqb r "-0.0")
  | VStr s => negb (String.eqb s "")
  | VList items | VTuple items =>
      match items with [] => false | _ => true end
  | VDict entries =>
      match entries with [] => false | _ => true end
  | VTpuVersion _ => true
  end.

(** [iter(v)], run to the end: the items of a list or tuple, the characters
    of a string, the keys of a dict; anything else is not iterable. *)
Definition py_iter (v : pyval) : result (list pyval) :=
  match v with
  | VList items | VTuple items => Ok items
  | VStr s => Ok (map VStr (str_chars s))
  | VDict entries => Ok (map (fun kv => VStr (fst kv)) entries)
  | _ => Raise TypeError
  end.

(** [a, b = v]. *)
Definition py_unpack2 (v : pyval) : result (pyval * pyval) :=
  items <- py_iter v ;;
  match items with
  | [a; b] => Ok (a, b)
  | _ => Raise ValueError
  end.

(** [a, b, c = v]. *)
Definition py_unpack3 (v : pyval) : result (pyval * pyval * pyval) :=
  items <- py_iter v ;;
  match items with
  | [a; b; c] => Ok (a, b, c)
  | _ => Raise ValueError
  end.

(** [v[:n]]. *)
Definition py_slice_to (n : nat) (v : pyval) : result pyval :=
  match v with
  | VStr s => Ok (VStr (str_take n s))
  | VList items => Ok (VList (firstn n items))
  | VTuple items => Ok (VTuple (firstn n items))
  | _ => Raise TypeError
  end.

(** [v.split("-")]: only [str] has the method among the values here. *)
Definition py_split_dash (v : pyval) : result (list string) :=
  match v with
  | VStr s => Ok (str_split "-" s)
  | _ => Raise AttributeError
  end.

(** [v == s] for a string literal [s]. *)
Definition py_eq_str (v : pyval) (s : string) : bool :=
  match v with
  | VStr s' => String.eqb s' s
  | _ => false
  end.

(** [v == TpuVersion.M]: an enum member is equal to itself only. *)
Definition py_eq_TpuVersion (v : pyval) (m : TpuVersion) : bool :=
  match v with
  | VTpuVersion t => TpuVersion_eqb t m
  | _ => false
  end.

(** [v[k]] for a string key [k]: a lookup in a dict; the other values here
    take no string subscript. *)
Definition py_getitem (v : pyval) (k : string) : result pyval :=
  match v with
  | VDict entries => dict_get entries k
  | _ => Raise TypeError
  end.

(* ===================================================================== *)
(** ** [xlml/apis/test_config.py]                                         *)
(* ===================================================================== *)

(** [class Tpu(Accelerator)].  [attrs] stores what it is given without
    checking the declared types, so the fields that the JSonnet loader
    fills from parsed JSON are dynamic values. *)
Module Tpu.

Record t : Type := mk {
  version : TpuVersion;
  cores : pyval;
  runtime_version : pyval;
  network : string;
  subnetwork : string;
  reserved : bool
}.

(** [f'v{self.version.value}-{self.cores}'] *)
Definition name (a : t) : string :=
  "v" ++ TpuVersion_value (version a) ++ "-" ++ py_str (cores a).

End Tpu.

(** [class TpuVmTest(TestConfig[Tpu])] *)
Module TpuVmTest.

Record t : Type := mk {
  accelerator : Tpu.t;
  time_out_in_min : pyval;
  task_owner : string;
  test_name : string;
  set_up_cmds : list string;
  run_model_cmds : list string;
  num_slices : Z;
  use_startup_script : bool
}.

(** The keywords that the generated [__init__] accepts. *)
Definition init_keywords : list string :=
  ["accelerator"; "test_name"; "set_up_cmds"; "run_model_cmds";
   "time_out_in_min"; "task_owner"; "num_slices"; "use_startup_script"].

Definition benchmark_id (c : t) : string :=
  if Z.eqb (num_slices c) 1
  then test_name c ++ "-" ++ Tpu.name (accelerator c)
  else test_name c ++ "-" ++ str_of_int (num_slices c) ++ "x"
       ++ Tpu.name (accelerator c).

Definition setup_script (c : t) : string :=
  str_join newline (set_up_cmds c).

Definition test_script (c : t) : string :=
  str_join newline (run_model_cmds c).

Definition startup_script (c : t) : string :=
  if Bool.eqb (use_startup_script c) false then ""
  else
    let main_command :=
      str_join newline (set_up_cmds c ++ run_model_cmds c)%list in
    let final_command :=
      newline
      ++ "bash -c '" ++ main_command ++ " 2>&1 | tee /tmp/logs &" ++ newline
      ++ "pid=$!" ++ newline
      ++ "echo $pid > /tmp/main_process_id.txt" ++ newline
      ++ "wait $pid" ++ newline
      ++ "exit_status=$?" ++ newline
      ++ "echo $exit_status > /tmp/process_exit_status.txt'" ++ newline in
    final_command.

End TpuVmTest.

(** [class TpuGkeTest(TestConfig[Tpu])] *)
Module TpuGkeTest.

Record t : Type := mk {
  accelerator : Tpu.t;
  time_out_in_min : pyval;
  task_owner : string;
  test_name : string;
  cluster_name : string;
  docker_image : string;
  set_up_cmds : list string;
  run_model_cmds : list string;
  startup_time_out_in_sec : Z;
  num_slices : Z
}.

Definition benchmark_id (c : t) : string :=
  if Z.eqb (num_slices c) 1
  then test_name c ++ "-" ++ Tpu.name (accelerator c)
  else test_name c ++ "-" ++ str_of_int (num_slices c) ++ "x"
       ++ Tpu.name (accelerator c).

Definition setup_script (c : t) : string :=
  str_join ";" (set_up_cmds c).

Definition test_script (c : t) : string :=
  str_join ";" (run_model_cmds c).

End TpuGkeTest.

(** [v // 60].  Floor division of a [float] is the runtime's floating
    point arithmetic, taken as [float_floordiv] on the [repr]s. *)
Definition py_floordiv_60 (float_floordiv : string -> Z -> string) (v : pyval)
  : result pyval :=
  match v with
  | VInt z => Ok (VInt (z / 60))
  | VBool b => Ok (VInt ((if b then 1 else 0) / 60))
  | VFloat r => Ok (VFloat (float_floordiv r 60%Z))
  | _ => Raise TypeError
  end.

(** [class JSonnetTpuVmTest(TestConfig[Tpu])] *)
Module JSonnetTpuVmTest.

Record t : Type := mk {
  accelerator : Tpu.t;
  time_out_in_min : pyval;
  task_owner : string;
  test_name : pyval;
  setup : pyval;
  exports : pyval;
  test_command : pyval;
  num_slices : Z;
  use_startup_script : bool
}.

Section FromJson.

Variable float_floordiv : string -> Z -> string.

(** The keyword arguments are evaluated in the order they are written;
    the keyword-only fields not passed keep their defaults. *)
Definition _from_json_helper
  (test : pyval) (setup exports test_command : pyval) (reserved : bool)
  : result t :=
  test_name <- py_getitem test "testName" ;;
  acc <- py_getitem test "accelerator" ;;
  ver <- py_getitem acc "version" ;;
  version <- TpuVersion_of_value (py_str ver) ;;
  acc' <- py_getitem test "accelerator" ;;
  size <- py_getitem acc' "size" ;;
  settings <- py_getitem test "tpuSettings" ;;
  software <- py_getitem settings "softwareVersion" ;;
  let accelerator :=
    Tpu.mk version size software "default" "default" reserved in
  timeout <- py_getitem test "timeout" ;;
  minutes <- py_floordiv_60 float_floordiv timeout ;;
  Ok (mk accelerator minutes "unowned" test_name setup exports test_command
         1%Z false).

End FromJson.

Definition benchmark_id (c : t) : pyval := test_name c.

(** [return None] *)
Definition startup_script (c : t) : option string := None.

End JSonnetTpuVmTest.

(* ===================================================================== *)
(** ** Python runtime: [json.loads] and files                             *)
(* ===================================================================== *)

Definition json_whitespace (c : ascii) : bool :=
  let n := nat_of_ascii c in
  Nat.eqb n 32 || Nat.eqb n 9 || Nat.eqb n 10 || Nat.eqb n 13.

Fixpoint skip_whitespace (s : string) : string :=
  match s with
  | EmptyString => EmptyString
  | String c s' => if json_whitespace c then skip_whitespace s' else s
  end.

(** The characters at which the scanner of the [json] module starts a
    value: a string, an object, an array, [null], [true], [false], a
    number, [NaN], [Infinity] or [-Infinity]. *)
Definition json_value_start (c : ascii) : bool :=
  let n := nat_of_ascii c in
  Ascii.eqb c dquote
  || existsb (Ascii.eqb c) (list_ascii_of_string "{[ntfNI-")
  || (Nat.leb 48 n && Nat.leb n 57).

(** [json.loads(s)]: leading whitespace is skipped; a document that is
    empty or starts with any other character is rejected ("Expecting
    value"); the rest of the decoding is that of the library, [decode]. *)
Definition json_loads (decode : string -> result pyval) (s : string)
  : result pyval :=
  match skip_whitespace s with
  | EmptyString => Raise JSONDecodeError
  | String c _ as doc =>
      if json_value_start c then decode doc else Raise JSONDecodeError
  end.

(** The files written so far, latest first. *)
Definition files : Type := list (string * string).

Definition write_file (fs : files) (path content : string) : files :=
  (path, content) :: fs.

(** A call [f(k1=..., k2=...)] of a callable that accepts the keywords
    [accepted]: an unexpected keyword is a [TypeError]. *)
Definition call_with_keywords {A : Type}
  (accepted passed : list string) (value : A) : result A :=
  if forallb (fun k => str_in k accepted) passed then Ok value
  else Raise TypeError.

(* ===================================================================== *)
(** ** [dags/inference/configs/maxdiffusion_inference_gce_config.py]      *)
(* ===================================================================== *)

(** The records of [xlml/apis/gcp_config.py], [metric_config.py] and
    [task.py] are declared outside the sources at hand; they are kept as
    the constructor arguments that the builder passes. *)
Inductive DatasetOption : Type :=
| BENCHMARK_DATASET
| XLML_DATASET.

Record GCPConfig : Type := mkGCPConfig {
  gcp_project_name : string;
  gcp_zone : string;
  gcp_dataset_name : DatasetOption
}.

Record JSONLinesConfig : Type := mkJSONLinesConfig {
  file_location : string
}.

Record MetricConfig : Type := mkMetricConfig {
  json_lines : JSONLinesConfig;
  use_runtime_generated_gcs_folder : bool
}.

Record TpuQueuedResourceTask : Type := mkTpuQueuedResourceTask {
  task_test_config : TpuVmTest.t;
  task_gcp_config : GCPConfig;
  task_metric_config : MetricConfig
}.

Definition PROJECT_NAME : string := Project_value CLOUD_ML_AUTO_SOLUTIONS.
Definition RUNTIME_IMAGE : string := RuntimeVersion_value TPU_UBUNTU2204_BASE.

Definition dq : string := String dquote EmptyString.

Section Maxdiffusion.

(** [metric_config.SshEnvVars.GCS_OUTPUT.value], [test_owner.VIJAYA_S],
    [test_owner.Team.INFERENCE.value] and [common.SetupMode]. *)
Variable GCS_OUTPUT : string.
Variable VIJAYA_S : string.
Variable Team_INFERENCE : string.
Variable SetupMode : Type.

(** The decoder and the encoder of the [json] module. *)
Variable json_decode : string -> result pyval.
Variable json_dumps : pyval -> string.

Definition GCS_SUBFOLDER_PREFIX : string := Team_INFERENCE.

(** [for k, v in model_configs: metrics["dimensions"][k] = str(v)].
    Iterating over a dict yields its keys, so [k, v] unpacks each key:
    a key that is not two characters long is a [ValueError]. *)
Fixpoint _modify_save_metrics_loop (keys : list string) (metrics : pyval)
  : result pyval :=
  match keys with
  | [] => Ok metrics
  | key :: rest =>
      match str_chars key with
      | [k; v] =>
          dimensions <- py_getitem metrics "dimensions" ;;
          match dimensions, metrics with
          | VDict dims, VDict entries =>
              _modify_save_metrics_loop rest
                (VDict (dict_set entries "dimensions"
                                 (VDict (dict_set dims k (VStr v)))))
          | _, _ => Raise TypeError
          end
      | _ => Raise ValueError
      end
  end.

Definition _modify_save_metrics
  (metrics_file : string) (model_configs : dict) (fs : files) : result files :=
  metrics <- json_loads json_decode metrics_file ;;
  metrics <- _modify_save_metrics_loop (map fst model_configs) metrics ;;
  Ok (write_file fs metrics_file (json_dumps metrics)).

Definition maxdiffusion_set_up_cmds : list string :=
  [ "pip install --upgrade pip";
    "git clone https://github.com/google/maxdiffusion.git"
    ++ "sudo apt-get -y update";
    "sudo apt-get -y install python3.10-venv";
    "python -m venv .env";
    "source .env/bin/activate";
    "cd maxdiffusion";
    "pip3 install jax[tpu] -f https://storage.googleapis.com/jax-releases/libtpu_releases.html";
    "pip3 install -r requirements.txt";
    "pip3 install .";
    "apt-get install ffmpeg libsm6 libxext6  -y" ++ "cd .." ].

(** The three [if model_name == ...] statements that assign
    [run_model_cmds]; [None] is the variable left unbound. *)
Definition maxdiffusion_run_model_cmds
  (per_device_bat_size attention model_name : pyval) : option (list string) :=
  let run_model_cmds : option (list string) := None in
  let run_model_cmds :=
    if py_eq_str model_name "SDXL-Base-1.0" then
      Some [ "source .env/bin/activate";
             "cd maxdiffusion";
             "cd .."
             ++ " python -m src.maxdiffusion.generate_sdxl src/maxdiffusion/configs/base_xl.yml run_name="
             ++ dq ++ "my_run" ++ dq
             ++ " per_device_batch_size=" ++ py_str per_device_bat_size
             ++ " attention=" ++ dq ++ py_str attention ++ dq ++ " ";
             "cd ..";
             "gsutil cp metrics.json " ++ GCS_OUTPUT ]
    else run_model_cmds in
  let run_model_cmds :=
    if py_eq_str model_name "SDXL-Lightning" then
      Some [ "source .env/bin/activate";
             "cd maxdiffusion";
             "cd .."
             ++ " python -m src.maxdiffusion.generate_sdxl src/maxdiffusion/configs/base_xl.yml run_name="
             ++ dq ++ "my_run" ++ dq
             ++ " lightning_repo=" ++ dq ++ "ByteDance/SDXL-Lightning" ++ dq
             ++ " lightning_ckpt=" ++ dq ++ "sdxl_lightning_4step_unet.safetensors" ++ dq
             ++ " per_device_batch_size=" ++ py_str per_device_bat_size
             ++ " attention=" ++ dq ++ py_str attention ++ dq ++ " ";
             "cd ..";
             "gsutil cp metrics.json " ++ GCS_OUTPUT ]
    else run_model_cmds in
  let run_model_cmds :=
    if py_eq_str model_name "SDXL-ControlNet" then
      Some [ "source .env/bin/activate";
             "cd maxdiffusion";
             "cd .."
             ++ " python src/maxdiffusion/controlnet/generate_controlnet_sdxl_replicated.py"
             ++ " per_device_batch_size=" ++ py_str per_device_bat_size
             ++ " attention=" ++ dq ++ py_str attention ++ dq ++ " ";
             "cd ..";
             "gsutil cp metrics.json " ++ GCS_OUTPUT ]
    else run_model_cmds in
  run_model_cmds.

Definition get_maxdiffusion_inference_nightly_config
  (tpu_version : TpuVersion) (tpu_cores : Z) (tpu_zone : string)
  (time_out_in_min : Z) (test_name : string) (test_mode : SetupMode)
  (project_name runtime_version network subnetwork : string)
  (is_tpu_reserved : bool) (num_slices : Z) (model_configs : dict)
  (fs : files)
  : result (TpuQueuedResourceTask * files) :=
  let job_gcp_config := mkGCPConfig project_name tpu_zone BENCHMARK_DATASET in
  per_device_bat_size <- dict_get model_configs "per_device_batch_size" ;;
  attention <- dict_get model_configs "attention" ;;
  model_name <- dict_get model_configs "model_name" ;;
  let set_up_cmds := maxdiffusion_set_up_cmds in
  let run_model_cmds :=
    maxdiffusion_run_model_cmds per_device_bat_size attention model_name in
  fs <- _modify_save_metrics "metrics.json" model_configs fs ;;
  let accelerator :=
    Tpu.mk tpu_version (VInt tpu_cores) (VStr runtime_version)
           network subnetwork is_tpu_reserved in
  run_model_cmds <-
    match run_model_cmds with
    | Some cmds => Ok cmds
    | None => Raise (UnboundLocalError "run_model_cmds")
    end ;;
  job_test_config <-
    call_with_keywords TpuVmTest.init_keywords
      ["test_name"; "set_up_cmds"; "run_model_cmds"; "timeout"; "task_owner";
       "num_slices"; "gcs_subfolder"]
      (TpuVmTest.mk accelerator VNone VIJAYA_S test_name set_up_cmds
                    run_model_cmds num_slices false) ;;
  let job_metric_config :=
    mkMetricConfig (mkJSONLinesConfig "metrics.json") true in
  Ok (mkTpuQueuedResourceTask job_test_config job_gcp_config job_metric_config,
      fs).

End Maxdiffusion.

(* ===================================================================== *)
(** ** [dags/inference/mor_jetstream_benchmark_serving.py]                *)
(* ===================================================================== *)

Definition LLAMA2_7B : string := "llama2-7b".
Definition LLAMA2_13B : string := "llama2-13b".

Definition BASE_MODE : string := "base".
Definition CHAT_MODE : string := "chat".

Definition W_BF16_KV_BF16 : string := "w-b16-kv-b16".
Definition W_BF16_KV_INT8 : string := "w-b16-kv-i8".
Definition W_INT8_KV_INT8 : string := "w-i8-kv-i8".

Definition CKPT : dict :=
  dict_of
    [ (LLAMA2_7B, VDict (dict_of
        [ (BASE_MODE, VStr "gs://inference-benchmarks/models/llama2-7b/2024-04-25-14-01/param-only-decode-ckpt-maxtext/checkpoints/0/items");
          (CHAT_MODE, VStr "gs://inference-benchmarks/models/llama2-7b-chat/2024-05-24-12-39/param-only-decode-ckpt-maxtext/checkpoints/0/items") ]));
      (LLAMA2_13B, VDict (dict_of
        [ (BASE_MODE, VStr "gs://inference-benchmarks/models/llama2-13b/2024-04-25-14-01/param-only-decode-ckpt-maxtext/checkpoints/0/items");
          (CHAT_MODE, VStr "gs://inference-benchmarks/models/llama2-13b-chat/2024-05-24-12-39/param-only-decode-ckpt-maxtext/checkpoints/0/items") ])) ].

(** [model_configs[k] = sweep_model_configs[k]] *)
Definition copy_key (src : pyval) (k : string) (d : dict) : result dict :=
  v <- py_getitem src k ;;
  Ok (dict_set d k v).

(** Reading a local variable that may not have been assigned. *)
Definition read_local {A : Type} (name : string) (v : option A) : result A :=
  match v with
  | Some a => Ok a
  | None => Raise (UnboundLocalError name)
  end.

(** The values that the seven nested loops of the DAG bind. *)
Record sweep_point : Type := mk_sweep_point {
  sp_tpu_version : pyval;
  sp_tpu_cores : pyval;
  sp_axis_order : pyval;
  sp_attention : pyval;
  sp_ici_parallelism : pyval;
  sp_per_device_batch_size : pyval;
  sp_request_rate : pyval;
  sp_warmup_mode : pyval
}.

Section MorJetstream.

(** [dags.multipod.configs.common.SetupMode] and its member [STABLE]. *)
Variable SetupMode : Type.
Variable STABLE : SetupMode.

(** The keyword arguments of
    [mor_jetstream_benchmark_serving_gce_config.config]. *)
Record config_kwargs : Type := mk_config_kwargs {
  kw_tpu_version : pyval;
  kw_tpu_cores : pyval;
  kw_tpu_zone : string;
  kw_time_out_in_min : pyval;
  kw_test_name : string;
  kw_test_mode : SetupMode;
  kw_project_name : string;
  kw_runtime_version : string;
  kw_network : string;
  kw_subnetwork : string;
  kw_is_tpu_reserved : bool;
  kw_model_configs : dict;
  kw_maxtext_branch : pyval;
  kw_jetstream_branch : pyval
}.

(** [mor_jetstream_benchmark_serving_gce_config.config], which builds the
    task, is not among the sources at hand: it is a parameter. *)
Variable Task : Type.
Variable config : config_kwargs -> result Task.

Definition generate_model_configs
  (test_name_prefix : string) (model_config_name : string)
  (sweep_model_configs axis_order attention ici_parallelism
   per_device_batch_size request_rate warmup_mode tpu_version tpu_cores : pyval)
  : result Task :=
  let model_configs : dict := [] in
  let model_configs :=
    dict_set model_configs "model_config_name" (VStr model_config_name) in
  let model_configs := dict_set model_configs "attention" attention in
  '(fsdp, autoregressive, tensor) <- py_unpack3 ici_parallelism ;;
  let model_configs := dict_set model_configs "ici_fsdp_parallelism" fsdp in
  let model_configs :=
    dict_set model_configs "ici_autoregressive_parallelism" autoregressive in
  let model_configs := dict_set model_configs "ici_tensor_parallelism" tensor in
  parts <- py_split_dash axis_order ;;
  match parts with
  | [prefill_axis_order; ar_axis_order] =>
    let prefill_axis_order := str_join "," (str_chars prefill_axis_order) in
    let ar_axis_order := str_join "," (str_chars ar_axis_order) in
    let model_configs :=
      dict_set model_configs "prefill_key_axis_order" (VStr prefill_axis_order) in
    let model_configs :=
      dict_set model_configs "prefill_value_axis_order" (VStr prefill_axis_order) in
    let model_configs :=
      dict_set model_configs "ar_key_axis_order" (VStr ar_axis_order) in
    let model_configs :=
      dict_set model_configs "ar_value_axis_order" (VStr ar_axis_order) in
    let model_configs :=
      dict_set model_configs "per_device_batch_size" per_device_batch_size in
    let model_configs := dict_set model_configs "request_rate" request_rate in
    let model_configs := dict_set model_configs "warmup_mode" warmup_mode in
    model_configs <- copy_key sweep_model_configs "maxtext_branch" model_configs ;;
    model_configs <- copy_key sweep_model_configs "jetstream_branch" model_configs ;;
    model_configs <- copy_key sweep_model_configs "model_name" model_configs ;;
    model_configs <- copy_key sweep_model_configs "model_mode" model_configs ;;
    model_configs <- copy_key sweep_model_configs "quant_mode" model_configs ;;
    model_configs <- copy_key sweep_model_configs "sleep_time" model_configs ;;
    model_configs <- copy_key sweep_model_configs "tokenizer" model_configs ;;
    model_configs <- copy_key sweep_model_configs "weight_dtype" model_configs ;;
    model_configs <- copy_key sweep_model_configs "scan_layers" model_configs ;;
    model_configs <-
      copy_key sweep_model_configs "max_prefill_predict_length" model_configs ;;
    model_configs <- copy_key sweep_model_configs "max_target_length" model_configs ;;
    model_configs <- copy_key sweep_model_configs "max_output_length" model_configs ;;
    model_configs <- copy_key sweep_model_configs "checkpoint" model_configs ;;
    model_configs <- copy_key sweep_model_configs "quantization" model_configs ;;
    model_configs <- copy_key sweep_model_configs "quantize_kvcache" model_configs ;;
    model_configs <- copy_key sweep_model_configs "dataset" model_configs ;;
    model_configs <- copy_key sweep_model_configs "num_prompts" model_configs ;;
    model_configs <- copy_key sweep_model_configs "run_eval" model_configs ;;
    attention_4 <- py_slice_to 4 attention ;;
    let test_run_tag :=
      model_config_name ++ "-" ++ py_str axis_order
      ++ "-bs" ++ py_str per_device_batch_size ++ "-" ++ py_str attention_4 in
    run_prefix <- py_getitem sweep_model_configs "run_prefix" ;;
    let test_name_prefix :=
      if py_truthy run_prefix
      then test_name_prefix ++ "-" ++ py_str run_prefix
      else test_name_prefix in
    let test_name := test_name_prefix ++ "-" ++ test_run_tag in
    let '(project_name, zone, network, subnetwork, runtime_version) :=
      if py_eq_TpuVersion tpu_version V5E
      then (Some (Project_value TPU_PROD_ENV_AUTOMATED),
            Some (Zone_value US_EAST1_C),
            Some V5_NETWORKS,
            Some V5E_SUBNETWORKS,
            Some (RuntimeVersion_value V2_ALPHA_TPUV5_LITE))
      else (None, None, None, None, None) in
    zone <- read_local "zone" zone ;;
    time_out_in_min <- py_getitem sweep_model_configs "time_out_in_min" ;;
    project_name <- read_local "project_name" project_name ;;
    runtime_version <- read_local "runtime_version" runtime_version ;;
    network <- read_local "network" network ;;
    subnetwork <- read_local "subnetwork" subnetwork ;;
    maxtext_branch <- dict_get model_configs "maxtext_branch" ;;
    jetstream_branch <- dict_get model_configs "jetstream_branch" ;;
    config (mk_config_kwargs tpu_version tpu_cores zone time_out_in_min
              test_name STABLE project_name runtime_version network
              subnetwork true model_configs maxtext_branch jetstream_branch)
  | _ => Raise ValueError
  end.

End MorJetstream.

(** *** The DAG [mor-jetstream-benchmark-serving] *)

Definition test_name_prefix : string := "mor-max-js".

Definition test_templates : dict :=
  dict_of
    [ (LLAMA2_7B, VDict (dict_of
        [ ("maxtext_branch", VStr "-b jetstream-v0.2.2");
          ("run_prefix", VNone);
          ("jetstream_branch", VStr "");
          ("sleep_time", VInt 120);
          ("time_out_in_min", VInt 60);
          ("tpu_version_cores", VList [VTuple [VTpuVersion V5E; VInt 8]]);
          ("model_name", VStr LLAMA2_7B);
          ("tokenizer", VStr "tokenizer.llama2");
          ("weight_dtype", VStr "bfloat16");
          ("scan_layers", VStr "false");
          ("max_prefill_predict_length", VInt 1024);
          ("max_target_length", VInt 2048);
          ("attention", VList [VStr "autoselected"]);
          ("ici_parallelisms", VList [VTuple [VInt 1; VInt 1; VInt (-1)]]);
          ("dataset", VStr "openorca");
          ("request_rate", VList [VFloat "0.0"]);
          ("num_prompts", VInt 1000);
          ("warmup_mode", VList [VStr "full"]);
          ("max_output_length", VInt 1024) ]));
      (LLAMA2_7B ++ "-" ++ W_BF16_KV_BF16 ++ "-axis-order", VDict (dict_of
        [ ("axis_order",
           VList [VStr "2103-2013"; VStr "2013-2013"; VStr "2130-2013"]) ]));
      (LLAMA2_7B ++ "-" ++ W_BF16_KV_INT8 ++ "-axis-order", VDict (dict_of
        [ ("axis_order",
           VList [VStr "2031-2031"; VStr "0231-0231"; VStr "0231-2031"]) ]));
      (LLAMA2_7B ++ "-" ++ W_INT8_KV_INT8 ++ "-axis-order", VDict (dict_of
        [ ("axis_order",
           VList [VStr "0231-2130"; VStr "0231-2103"; VStr "0231-0231"]) ])) ].

(** [a | b] for dicts. *)
Definition py_or (a b : pyval) : result pyval :=
  match a, b with
  | VDict x, VDict y => Ok (VDict (dict_union x y))
  | _, _ => Raise TypeError
  end.

(** One value of [tests]:
    [test_templates[LLAMA2_7B] | test_templates[f"{LLAMA2_7B}-{quant}-axis-order"]
     | {"checkpoint": CKPT[LLAMA2_7B][mode], "model_mode": mode, ...}]. *)
Definition tests_value
  (mode quant_mode quantization quantize_kvcache : string)
  (per_device_batch_size : Z) (run_eval : bool) : result pyval :=
  base <- dict_get test_templates LLAMA2_7B ;;
  axis <- dict_get test_templates
            (LLAMA2_7B ++ "-" ++ quant_mode ++ "-axis-order") ;;
  merged <- py_or base axis ;;
  by_mode <- dict_get CKPT LLAMA2_7B ;;
  checkpoint <- py_getitem by_mode mode ;;
  py_or merged (VDict (dict_of
    [ ("checkpoint", checkpoint);
      ("model_mode", VStr mode);
      ("quant_mode", VStr quant_mode);
      ("quantization", VStr quantization);
      ("quantize_kvcache", VStr quantize_kvcache);
      ("per_device_batch_sizes", VList [VInt per_device_batch_size]);
      ("run_eval", VBool run_eval) ])).

Definition tests : result dict :=
  base_bf16 <- tests_value BASE_MODE W_BF16_KV_BF16 "" "false" 10 false ;;
  base_kv8 <- tests_value BASE_MODE W_BF16_KV_INT8 "" "true" 24 false ;;
  base_int8 <- tests_value BASE_MODE W_INT8_KV_INT8 "int8" "true" 24 false ;;
  chat_bf16 <- tests_value CHAT_MODE W_BF16_KV_BF16 "" "false" 10 true ;;
  chat_kv8 <- tests_value CHAT_MODE W_BF16_KV_INT8 "" "true" 24 true ;;
  chat_int8 <- tests_value CHAT_MODE W_INT8_KV_INT8 "int8" "true" 24 true ;;
  Ok (dict_of
    [ (LLAMA2_7B ++ "-" ++ BASE_MODE ++ "-" ++ W_BF16_KV_BF16, base_bf16);
      (LLAMA2_7B ++ "-" ++ BASE_MODE ++ "-" ++ W_BF16_KV_INT8, base_kv8);
      (LLAMA2_7B ++ "-" ++ BASE_MODE ++ "-" ++ W_INT8_KV_INT8, base_int8);
      (LLAMA2_7B ++ "-" ++ CHAT_MODE ++ "-" ++ W_BF16_KV_BF16, chat_bf16);
      (LLAMA2_7B ++ "-" ++ CHAT_MODE ++ "-" ++ W_BF16_KV_INT8, chat_kv8);
      (LLAMA2_7B ++ "-" ++ CHAT_MODE ++ "-" ++ W_INT8_KV_INT8, chat_int8) ]).

Definition run_configs : list string :=
  [ LLAMA2_7B ++ "-" ++ BASE_MODE ++ "-" ++ W_BF16_KV_BF16;
    LLAMA2_7B ++ "-" ++ BASE_MODE ++ "-" ++ W_BF16_KV_INT8;
    LLAMA2_7B ++ "-" ++ CHAT_MODE ++ "-" ++ W_INT8_KV_INT8;
    LLAMA2_7B ++ "-" ++ CHAT_MODE ++ "-" ++ W_BF16_KV_BF16;
    LLAMA2_7B ++ "-" ++ CHAT_MODE ++ "-" ++ W_BF16_KV_INT8;
    LLAMA2_7B ++ "-" ++ BASE_MODE ++ "-" ++ W_INT8_KV_INT8 ].

Definition skip_configs : list string := [].

(** [for x in d[k]:] *)
Definition for_in_key {B : Type} (d : pyval) (k : string)
  (body : pyval -> result (list B)) : result (list B) :=
  v <- py_getitem d k ;;
  items <- py_iter v ;;
  for_each items body.

(** The seven nested [for] statements over the sweep lists of one
    configuration, with the innermost statement as [body]. *)
Definition sweep_loops {B : Type} (sweep_model_configs : pyval)
  (body : sweep_point -> result B) : result (list B) :=
  for_in_key sweep_model_configs "tpu_version_cores" (fun version_cores =>
    '(tpu_version, tpu_cores) <- py_unpack2 version_cores ;;
    for_in_key sweep_model_configs "axis_order" (fun axis_order =>
      for_in_key sweep_model_configs "attention" (fun attention =>
        for_in_key sweep_model_configs "ici_parallelisms" (fun ici_parallelism =>
          for_in_key sweep_model_configs "per_device_batch_sizes"
            (fun per_device_batch_size =>
              for_in_key sweep_model_configs "request_rate" (fun request_rate =>
                for_in_key sweep_model_configs "warmup_mode" (fun warmup_mode =>
                  b <- body (mk_sweep_point tpu_version tpu_cores axis_order
                               attention ici_parallelism per_device_batch_size
                               request_rate warmup_mode) ;;
                  Ok [b]))))))).

(** The loop over [tests.items()], with its two [continue] guards. *)
Definition dag_loop {B : Type}
  (body : string -> pyval -> sweep_point -> result B) : result (list B) :=
  tests <- tests ;;
  for_each tests (fun item =>
    let '(model_config_name, sweep_model_configs) := item in
    if negb (Nat.eqb (length run_configs) 0)
       && negb (str_in model_config_name run_configs) then Ok []
    else if negb (Nat.eqb (length skip_configs) 0)
            && str_in model_config_name skip_configs then Ok []
    else sweep_loops sweep_model_configs
           (body model_config_name sweep_model_configs)).

(** The tasks that the module builds, in the order it builds them. *)
Definition dag {SetupMode : Type} (STABLE : SetupMode) {Task : Type}
  (config : config_kwargs SetupMode -> result Task) : result (list Task) :=
  dag_loop (fun model_config_name sweep_model_configs p =>
    generate_model_configs SetupMode STABLE Task config
      test_name_prefix model_config_name sweep_model_configs
      (sp_axis_order p) (sp_attention p) (sp_ici_parallelism p)
      (sp_per_device_batch_size p) (sp_request_rate p) (sp_warmup_mode p)
      (sp_tpu_version p) (sp_tpu_cores p)).

(** [mapM]: call [f] on each element in turn, stopping at the first
    exception. *)
Fixpoint map_result {A B : Type} (f : A -> result B) (l : list A)
  : result (list B) :=
  match l with
  | [] => Ok []
  | x :: l' =>
      b <- f x ;;
      bs <- map_result f l' ;;
      Ok (b :: bs)
  end.

(** The loop variables at each run of the innermost statement of the DAG,
    in order, with the configuration they belong to. *)
Definition dag_points : list (string * pyval * sweep_point) :=
  match dag_loop (fun name sweep p => Ok (name, sweep, p)) with
  | Ok l => l
  | Raise _ => []
  end.

(** The Cartesian product of the sweep lists of a configuration, as a
    membership predicate: each coordinate is drawn from its list. *)
Definition in_key (d : pyval) (k : string) (x : pyval) : Prop :=
  exists items, py_getitem d k = Ok (VList items) /\ In x items.

Definition in_cartesian_product (sweep : pyval) (p : sweep_point) : Prop :=
  in_key sweep "tpu_version_cores" (VTuple [sp_tpu_version p; sp_tpu_cores p])
  /\ in_key sweep "axis_order" (sp_axis_order p)
  /\ in_key sweep "attention" (sp_attention p)
  /\ in_key sweep "ici_parallelisms" (sp_ici_parallelism p)
  /\ in_key sweep "per_device_batch_sizes" (sp_per_device_batch_size p)
  /\ in_key sweep "request_rate" (sp_request_rate p)
  /\ in_key sweep "warmup_mode" (sp_warmup_mode p).

(* ===================================================================== *)
(** ** Vocabulary of the properties                                       *)
(* ===================================================================== *)

(** The words "the [sep]-join of [items]": the items in order, with [sep]
    between two consecutive ones and nowhere else. *)
Inductive joined_by (sep : string) : list string -> string -> Prop :=
| joined_none : joined_by sep [] ""
| joined_last x : joined_by sep [x] x
| joined_more x y rest s :
    joined_by sep (y :: rest) s ->
    joined_by sep (x :: y :: rest) (x ++ sep ++ s).

(** The lines of the script that follow the wrapped command. *)
Definition startup_script_tail : list string :=
  [ "pid=$!";
    "echo $pid > /tmp/main_process_id.txt";
    "wait $pid";
    "exit_status=$?";
    "echo $exit_status > /tmp/process_exit_status.txt'";
    "" ].

(** A compiled JSonnet test that has the fields the loader reads. *)
Definition compiled_test_fields
  (test test_name version size software timeout : pyval) (v : TpuVersion)
  : Prop :=
  py_getitem test "testName" = Ok test_name
  /\ (exists acc, py_getitem test "accelerator" = Ok acc
                  /\ py_getitem acc "version" = Ok version
                  /\ py_getitem acc "size" = Ok size)
  /\ TpuVersion_of_value (py_str version) = Ok v
  /\ (exists settings, py_getitem test "tpuSettings" = Ok settings
                       /\ py_getitem settings "softwareVersion" = Ok software)
  /\ py_getitem test "timeout" = Ok timeout.


Definition supported_model_names : list string :=
  ["SDXL-Base-1.0"; "SDXL-Lightning"; "SDXL-ControlNet"].

(** The keys of [sweep_model_configs] that the function reads before it
    builds the task. *)
Definition keys_read_before_call : list string :=
  [ "maxtext_branch"; "jetstream_branch"; "model_name"; "model_mode";
    "quant_mode"; "sleep_time"; "tokenizer"; "weight_dtype"; "scan_layers";
    "max_prefill_predict_length"; "max_target_length"; "max_output_length";
    "checkpoint"; "quantization"; "quantize_kvcache"; "dataset";
    "num_prompts"; "run_eval"; "run_prefix" ].

(** The statements before the call of [config] run to the end: the
    unpacking of [ici_parallelism], the split of [axis_order], the reads of
    [sweep_model_configs] and the slice of [attention]. *)
Definition statements_before_call_succeed
  (sweep_model_configs axis_order attention ici_parallelism : pyval) : Prop :=
  (exists abc, py_unpack3 ici_parallelism = Ok abc)
  /\ (exists prefill ar, py_split_dash axis_order = Ok [prefill; ar])
  /\ (forall k, In k keys_read_before_call ->
                exists v, py_getitem sweep_model_configs k = Ok v)
  /\ (exists a4, py_slice_to 4 attention = Ok a4).

Fixpoint distinct_strings (l : list string) : bool :=
  match l with
  | [] => true
  | x :: l' => negb (str_in x l') && distinct_strings l'
  end.

(** A point of the DAG is told apart by its configuration name and its
    axis order. *)
Definition point_label (x : string * pyval * sweep_point) : string :=
  fst (fst x) ++ "/" ++ py_str (sp_axis_order (snd x)).

(** The sweep lists of the configuration [name], looked up in [tests]. *)
Definition tests_lookup (name : string) : result pyval :=
  ts <- tests ;;
  dict_get ts name.

(** The call of [generate_model_configs] at a point of the DAG. *)
Definition task_at {SetupMode : Type} (STABLE : SetupMode) {Task : Type}
  (config : config_kwargs SetupMode -> result Task)
  (x : string * pyval * sweep_point) : result Task :=
  generate_model_configs SetupMode STABLE Task config
    test_name_prefix (fst (fst x)) (snd (fst x))
    (sp_axis_order (snd x)) (sp_attention (snd x))
    (sp_ici_parallelism (snd x)) (sp_per_device_batch_size (snd x))
    (sp_request_rate (snd x)) (sp_warmup_mode (snd x))
    (sp_tpu_version (snd x)) (sp_tpu_cores (snd x)).

(** *** Sample inputs *)

Definition vm_test_example (use_startup_script : bool) : TpuVmTest.t :=
  TpuVmTest.mk (Tpu.mk V4 (VInt 8) VNone "default" "default" false)
    VNone "unowned" "resnet" ["pip install x"; "cd x"] ["python3 train.py"]
    1 use_startup_script.

Definition jsonnet_test_example : JSonnetTpuVmTest.t :=
  JSonnetTpuVmTest.mk (Tpu.mk V2 (VInt 8) (VStr "tpu-ubuntu2204-base")
                              "default" "default" true)
    (VInt 60) "unowned" (VStr "pt-nightly-mnist-pjrt-func-v2-8-1vm")
    (VStr "pip install torch") (VStr "export PJRT_DEVICE=TPU")
    (VList [VStr "python3"; VStr "mnist.py"]) 1 false.

Definition compiled_test_example (seconds : Z) : pyval :=
  VDict (dict_of
    [ ("testName", VStr "pt-nightly-mnist-pjrt-func-v2-8-1vm");
      ("accelerator", VDict (dict_of
         [ ("name", VStr "v2-8"); ("version", VInt 2); ("size", VInt 8) ]));
      ("tpuSettings", VDict (dict_of
         [ ("softwareVersion", VStr "tpu-ubuntu2204-base") ]));
      ("timeout", VInt seconds) ]).

Definition maxdiffusion_model_configs_example : dict :=
  dict_of [ ("per_device_batch_size", VInt 2);
            ("attention", VStr "dot_product");
            ("model_name", VStr "SDXL-Base-1.0") ].

Definition sweep_example : pyval :=
  match tests with
  | Ok ((_, sweep) :: _) => sweep
  | _ => VNone
  end.
(* ===================================================================== *)
(** ** [xlml/apis/test_config.py]: the remaining classes and methods      *)
(* ===================================================================== *)

(** [class Gpu(Accelerator)] *)
Module Gpu.

Record t : Type := mk {
  machine_type : string;
  image_family : string;
  count : Z;
  accelerator_type : string;
  runtime_version : string
}.

Definition name (a : t) : string := accelerator_type a.

End Gpu.

(** [class GpuVmTest(TestConfig[Gpu])] *)
Module GpuVmTest.

Record t : Type := mk {
  accelerator : Gpu.t;
  time_out_in_min : pyval;
  task_owner : string;
  test_name : string;
  set_up_cmds : list string;
  run_model_cmds : list string
}.

Definition benchmark_id (c : t) : string :=
  test_name c ++ "-" ++ Gpu.name (accelerator c).

Definition setup_script (c : t) : string :=
  str_join newline (set_up_cmds c).

Definition test_script (c : t) : string :=
  str_join newline (run_model_cmds c).

End GpuVmTest.

(** *** [shlex.quote]

    A word is left as it is when it is not empty and made of the
    characters [A-Za-z0-9_@%+=:,./-]; otherwise it is put between single
    quotes, each single quote inside written as the five characters
    quote, double quote, quote, double quote, quote. *)
Definition shlex_safe_char (c : ascii) : bool :=
  let n := nat_of_ascii c in
  (Nat.leb 48 n && Nat.leb n 57)
  || (Nat.leb 65 n && Nat.leb n 90)
  || (Nat.leb 97 n && Nat.leb n 122)
  || existsb (Ascii.eqb c) (list_ascii_of_string "_@%+=:,./-").

Definition quoted_squote : string :=
  String squote (String dquote (String squote (String dquote
    (String squote EmptyString)))).

(** [s.replace("'", <quoted_squote>)] *)
Fixpoint shlex_escape (s : string) : string :=
  match s with
  | EmptyString => EmptyString
  | String c s' =>
      if Ascii.eqb c squote then quoted_squote ++ shlex_escape s'
      else String c (shlex_escape s')
  end.

Definition shlex_quote_str (s : string) : string :=
  match s with
  | EmptyString => String squote (String squote EmptyString)
  | _ =>
      if forallb shlex_safe_char (list_ascii_of_string s) then s
      else String squote (shlex_escape s) ++ String squote EmptyString
  end.

(** [shlex.quote(v)]: [if not s] comes first, so every false value gives
    the empty quoted word; a true value that is not a [str] is rejected by
    the regular expression search. *)
Definition shlex_quote (v : pyval) : result string :=
  if negb (py_truthy v) then Ok (String squote (String squote EmptyString))
  else match v with
       | VStr s => Ok (shlex_quote_str s)
       | _ => Raise TypeError
       end.

(** [a + b] where the left operand is a [str]: only a [str] can be added
    to it. *)
Definition py_str_add (a : string) (b : pyval) : result pyval :=
  match b with
  | VStr s => Ok (VStr (a ++ s))
  | _ => Raise TypeError
  end.

(** [a + b] where the right operand is a [str] literal: none of the other
    values here can be added to a [str]. *)
Definition py_add_str (a : pyval) (b : string) : result pyval :=
  match a with
  | VStr s => Ok (VStr (s ++ b))
  | _ => Raise TypeError
  end.

(** The result of code that opens a file: a value, an exception of the
    code itself, or the failure of [open] on a path that is not there. *)
Inductive io_result (A : Type) : Type :=
| Done (a : A)
| Failed (e : exn)
| FileNotFoundError (path : string).
Arguments Done {A} a.
Arguments Failed {A} e.
Arguments FileNotFoundError {A} path.

Definition io_of_result {A : Type} (r : result A) : io_result A :=
  match r with
  | Ok a => Done a
  | Raise e => Failed e
  end.

Definition io_bind {A B : Type} (r : io_result A) (k : A -> io_result B)
  : io_result B :=
  match r with
  | Done a => k a
  | Failed e => Failed e
  | FileNotFoundError p => FileNotFoundError p
  end.

(** [os.path.join(a, b)] on POSIX: an absolute [b] replaces [a]; otherwise
    [b] is appended, after a slash unless [a] is empty or ends with one. *)
Fixpoint ends_with_slash (s : string) : bool :=
  match s with
  | EmptyString => false
  | String c EmptyString => Ascii.eqb c "/"
  | String _ s' => ends_with_slash s'
  end.

Definition starts_with_slash (s : string) : bool :=
  match s with
  | String c _ => Ascii.eqb c "/"
  | EmptyString => false
  end.

Definition os_path_join (a b : string) : string :=
  if starts_with_slash b then b
  else if String.eqb a "" || ends_with_slash a then a ++ b
  else a ++ "/" ++ b.

(** The methods of [JSonnetTpuVmTest] that read and render a compiled
    test. *)
Module JSonnetTpuVmTestMethods.

Section Loading.

(** [os.environ.get('XLMLTEST_CONFIGS')], the content of the files by
    path, and the decoder of the [json] module. *)
Variable XLMLTEST_CONFIGS : option string.
Variable file_content : string -> option string.
Variable json_decode : string -> result pyval.
Variable float_floordiv : string -> Z -> string.

Definition _load_compiled_jsonnet (test_name : string) : io_result pyval :=
  let config_dir :=
    match XLMLTEST_CONFIGS with
    | Some dir => dir
    | None => "/home/airflow/gcs/dags/dags/jsonnet"
    end in
  let test_path := os_path_join config_dir test_name in
  match file_content test_path with
  | None => FileNotFoundError test_path
  | Some text => io_of_result (json_loads json_decode text)
  end.

Definition from_jax (test_name : string) (reserved_tpu : bool)
  : io_result JSonnetTpuVmTest.t :=
  io_bind (_load_compiled_jsonnet test_name) (fun test =>
  io_of_result (
    setup <- py_getitem test "setup" ;;
    run_test <- py_getitem test "runTest" ;;
    JSonnetTpuVmTest._from_json_helper float_floordiv test setup (VStr "")
      (VList [VStr "bash"; VStr "-c"; run_test]) reserved_tpu)).

Definition from_pytorch (test_name : string) (reserved_tpu : bool)
  : io_result JSonnetTpuVmTest.t :=
  io_bind (_load_compiled_jsonnet test_name) (fun test =>
  io_of_result (
    settings <- py_getitem test "tpuSettings" ;;
    pytorch_setup <- py_getitem settings "tpuVmPytorchSetup" ;;
    with_cd <- py_add_str pytorch_setup (newline ++ "cd ~" ++ newline) ;;
    settings <- py_getitem test "tpuSettings" ;;
    extra_setup <- py_getitem settings "tpuVmExtraSetup" ;;
    setup <-
      match with_cd with
      | VStr s => py_str_add s extra_setup
      | _ => Raise TypeError
      end ;;
    settings <- py_getitem test "tpuSettings" ;;
    exports <- py_getitem settings "tpuVmExports" ;;
    command <- py_getitem test "command" ;;
    JSonnetTpuVmTest._from_json_helper float_floordiv test setup exports
      command reserved_tpu)).

End Loading.

(** ['\n'.join(['set -xue', self.setup])]: [join] takes strings only. *)
Definition setup_script (c : JSonnetTpuVmTest.t) : result string :=
  match JSonnetTpuVmTest.setup c with
  | VStr setup => Ok (str_join newline ["set -xue"; setup])
  | _ => Raise TypeError
  end.

(** [shlex.quote(s) for s in self.test_command], run to the end. *)
Fixpoint quote_all (words : list pyval) : result (list string) :=
  match words with
  | [] => Ok []
  | w :: rest =>
      quoted <- shlex_quote w ;;
      others <- quote_all rest ;;
      Ok (quoted :: others)
  end.

(** The inner [' '.join(...)] is evaluated before the outer join looks at
    [self.exports]. *)
Definition test_script (c : JSonnetTpuVmTest.t) : result string :=
  words <- py_iter (JSonnetTpuVmTest.test_command c) ;;
  quoted <- quote_all words ;;
  match JSonnetTpuVmTest.exports c with
  | VStr exports =>
      Ok (str_join newline ["set -xue"; exports; str_join " " quoted])
  | _ => Raise TypeError
  end.

End JSonnetTpuVmTestMethods.

(* ===================================================================== *)
(** ** Vocabulary of the further properties                               *)
(* ===================================================================== *)

(** No command of the list holds the character [c]. *)
Definition no_char (c : ascii) (cmds : list string) : Prop :=
  Forall (fun s => str_contains_char c s = false) cmds.

(** A JSON number, as Python holds it: [int], [bool] or [float]. *)
Definition is_number (v : pyval) : Prop :=
  match v with
  | VInt _ | VBool _ | VFloat _ => True
  | _ => False
  end.

(** The keys of [model_configs], in the order the function sets them. *)
Definition model_configs_keys : list string :=
  [ "model_config_name"; "attention"; "ici_fsdp_parallelism";
    "ici_autoregressive_parallelism"; "ici_tensor_parallelism";
    "prefill_key_axis_order"; "prefill_value_axis_order";
    "ar_key_axis_order"; "ar_value_axis_order"; "per_device_batch_size";
    "request_rate"; "warmup_mode"; "maxtext_branch"; "jetstream_branch";
    "model_name"; "model_mode"; "quant_mode"; "sleep_time"; "tokenizer";
    "weight_dtype"; "scan_layers"; "max_prefill_predict_length";
    "max_target_length"; "max_output_length"; "checkpoint"; "quantization";
    "quantize_kvcache"; "dataset"; "num_prompts"; "run_eval" ].

(** The Cartesian product of seven lists, in the order of the loops: the
    first list varies slowest. *)
Definition product_points
  (version_cores : list (pyval * pyval))
  (axis_orders attentions ici_parallelisms per_device_batch_sizes
   request_rates warmup_modes : list pyval) : list sweep_point :=
  flat_map (fun vc =>
  flat_map (fun axis_order =>
  flat_map (fun attention =>
  flat_map (fun ici_parallelism =>
  flat_map (fun per_device_batch_size =>
  flat_map (fun request_rate =>
  map (fun warmup_mode =>
    mk_sweep_point (fst vc) (snd vc) axis_order attention ici_parallelism
      per_device_batch_size request_rate warmup_mode)
    warmup_modes)
    request_rates)
    per_device_batch_sizes)
    ici_parallelisms)
    attentions)
    axis_orders)
    version_cores.

(** The entry [k] of the configuration is a value that iterates as
    [items]. *)
Definition sweep_list (sweep : pyval) (k : string) (items : list pyval)
  : Prop :=
  exists v, py_getitem sweep k = Ok v /\ py_iter v = Ok items.

(** The seven sweep lists of a configuration: each entry can be iterated,
    and the items of tpu_version_cores unpack into pairs. *)
Definition sweep_lists (sweep : pyval)
  (version_cores : list (pyval * pyval))
  (axis_orders attentions ici_parallelisms per_device_batch_sizes
   request_rates warmup_modes : list pyval) : Prop :=
  (exists items, sweep_list sweep "tpu_version_cores" items
                 /\ map_result py_unpack2 items = Ok version_cores)
  /\ sweep_list sweep "axis_order" axis_orders
  /\ sweep_list sweep "attention" attentions
  /\ sweep_list sweep "ici_parallelisms" ici_parallelisms
  /\ sweep_list sweep "per_device_batch_sizes" per_device_batch_sizes
  /\ sweep_list sweep "request_rate" request_rates
  /\ sweep_list sweep "warmup_mode" warmup_modes.

(** *** Further sample inputs *)

(** Sample file for the loaders. *)
Definition jsonnet_file_example : pyval :=
  VDict (dict_of
    [ ("testName", VStr "pt-nightly-mnist-pjrt-func-v2-8-1vm");
      ("accelerator", VDict (dict_of
         [ ("name", VStr "v2-8"); ("version", VInt 2); ("size", VInt 8) ]));
      ("tpuSettings", VDict (dict_of
         [ ("softwareVersion", VStr "tpu-ubuntu2204-base");
           ("tpuVmPytorchSetup", VStr "pip install torch");
           ("tpuVmExtraSetup", VStr "pip install torchvision");
           ("tpuVmExports", VStr "export PJRT_DEVICE=TPU") ]));
      ("setup", VStr "pip install jax");
      ("runTest", VStr "python3 train.py --steps=10");
      ("command", VList [VStr "python3"; VStr "mnist.py"]);
      ("timeout", VInt 3600) ]).

Definition files_example (path : string) : option string :=
  if String.eqb path "/home/airflow/gcs/dags/dags/jsonnet/mnist"
  then Some "{}" else None.




(** A test whose only command exits with the status 7. *)
Definition exit_7_test : TpuVmTest.t :=
  TpuVmTest.mk (Tpu.mk V4 (VInt 8) VNone "default" "default" false)
    VNone "unowned" "exit-status" [] ["exit 7"] 1 true.

(* ===================================================================== *)
(** * Properties                                                          *)
(* ===================================================================== *)

(** ** Evaluation on concrete inputs *)

Example str_join_ex : str_join ";" ["a"; "b"; "c"] = "a;b;c".
Proof. reflexivity. Qed.

Example str_split_ex : str_split "-" "2103-2013" = ["2103"; "2013"].
Proof. reflexivity. Qed.

Example str_split_ex2 : str_split "-" "a--b-" = ["a"; ""; "b"; ""].
Proof. reflexivity. Qed.

Example str_of_int_ex :
  (str_of_int 10, str_of_int (-1), str_of_int 0) = ("10", "-1", "0").
Proof. reflexivity. Qed.

Example pad2_ex : (pad2 7, pad2 12) = ("07", "12").
Proof. reflexivity. Qed.

Example py_repr_ex :
  py_repr (VList [VTuple [VTpuVersion V5E; VInt 8]; VStr "it's"; VNone])
  = "[(<TpuVersion.V5E: '5litepod'>, 8), " ++ dq ++ "it's" ++ dq ++ ", None]".
Proof. reflexivity. Qed.

Example V5_NETWORKS_ex :
  V5_NETWORKS = "projects/tpu-prod-env-automated/global/networks/mas-test".
Proof. reflexivity. Qed.

Example strftime_ex :
  (strftime_Ymd (mkDate 2024 6 1), strftime_Y_m_d (mkDate 2024 6 1))
  = ("20240601", "2024-06-01").
Proof. reflexivity. Qed.

Example json_loads_file_name decode :
  json_loads decode "metrics.json" = Raise JSONDecodeError.
Proof. reflexivity. Qed.

Example json_loads_hands_over decode :
  json_loads decode "  {}" = decode "{}".
Proof. reflexivity. Qed.

Example dag_points_length : length dag_points = 18.
Proof. vm_compute. reflexivity. Qed.

(** ** Strings *)

Lemma append_assoc (a b c : string) : (a ++ b) ++ c = a ++ (b ++ c).
Proof. induction a as [|x a IH]; simpl; [reflexivity | now rewrite IH]. Qed.

Lemma append_empty_r (a : string) : a ++ "" = a.
Proof. induction a as [|x a IH]; simpl; [reflexivity | now rewrite IH]. Qed.

Lemma length_append (a b : string) :
  String.length (a ++ b) = String.length a + String.length b.
Proof. induction a as [|x a IH]; simpl; [reflexivity | now rewrite IH]. Qed.

Lemma append_inj_l (p a b : string) : p ++ a = p ++ b -> a = b.
Proof.
  induction p as [|x p IH]; simpl; intros H; [exact H |].
  injection H as H. now apply IH.
Qed.

(** Two strings that end in tails of the same length are equal only when
    the heads are equal and the tails are equal. *)
Lemma append_inj_tail (a b s t : string) :
  String.length s = String.length t -> a ++ s = b ++ t -> a = b /\ s = t.
Proof.
  revert b. induction a as [|x a IH]; intros [|y b] Hlen H; simpl in H.
  - now split.
  - exfalso. apply (f_equal String.length) in H. simpl in H.
    rewrite length_append in H. lia.
  - exfalso. apply (f_equal String.length) in H. simpl in H.
    rewrite length_append in H. lia.
  - injection H as Hxy H. destruct (IH b Hlen H) as [-> ->]. now subst.
Qed.

(** ** [str.join] *)

Lemma str_join_joined sep items : joined_by sep items (str_join sep items).
Proof.
  induction items as [|x [|y rest] IH]; simpl.
  - constructor.
  - constructor.
  - constructor. exact IH.
Qed.

Lemma joined_by_unique sep items s :
  joined_by sep items s -> s = str_join sep items.
Proof.
  induction 1 as [|x|x y rest s _ IH]; simpl; try reflexivity.
  now rewrite IH.
Qed.

(** C3. For every TpuVmTest, setup_script is the newline-join of
    set_up_cmds and test_script is the newline-join of run_model_cmds; for
    every TpuGkeTest, setup_script is the semicolon-join of set_up_cmds
    and test_script is the semicolon-join of run_model_cmds. *)
Theorem scripts_are_joins (v : TpuVmTest.t) (g : TpuGkeTest.t) :
  joined_by newline (TpuVmTest.set_up_cmds v) (TpuVmTest.setup_script v)
  /\ joined_by newline (TpuVmTest.run_model_cmds v) (TpuVmTest.test_script v)
  /\ joined_by ";" (TpuGkeTest.set_up_cmds g) (TpuGkeTest.setup_script g)
  /\ joined_by ";" (TpuGkeTest.run_model_cmds g) (TpuGkeTest.test_script g).
Proof.
  unfold TpuVmTest.setup_script, TpuVmTest.test_script,
    TpuGkeTest.setup_script, TpuGkeTest.test_script.
  repeat split; apply str_join_joined.
Qed.

(** ** The startup script *)

(** The text of the startup script.  It is the empty string when
    use_startup_script is False; when it is True, the script is, line by
    line: an empty line, [bash -c '] opening the newline-join of
    set_up_cmds followed by run_model_cmds, piped through [tee /tmp/logs]
    in the background, then [pid=$!], the pid written to
    /tmp/main_process_id.txt, [wait $pid], [exit_status=$?], and
    [$exit_status] written as it is to /tmp/process_exit_status.txt. *)
Lemma startup_script_text (c : TpuVmTest.t) :
  (TpuVmTest.use_startup_script c = false -> TpuVmTest.startup_script c = "")
  /\ (TpuVmTest.use_startup_script c = true ->
      exists main_command,
        joined_by newline
          (TpuVmTest.set_up_cmds c ++ TpuVmTest.run_model_cmds c)%list
          main_command
        /\ joined_by newline
             ("" :: ("bash -c '" ++ main_command ++ " 2>&1 | tee /tmp/logs &")
                 :: startup_script_tail)
             (TpuVmTest.startup_script c)).
Proof.
  unfold TpuVmTest.startup_script. split; intros ->; simpl.
  - reflexivity.
  - eexists. split; [apply str_join_joined |].
    set (main := str_join newline _).
    match goal with
    | |- joined_by _ ?l ?s => replace s with (str_join newline l)
    end.
    + apply str_join_joined.
    + simpl. rewrite !append_assoc. reflexivity.
Qed.

Lemma startup_script_text_witness :
  TpuVmTest.startup_script (vm_test_example false) = ""
  /\ exists main_command,
       joined_by newline ["pip install x"; "cd x"; "python3 train.py"]
         main_command
       /\ joined_by newline
            ("" :: ("bash -c '" ++ main_command ++ " 2>&1 | tee /tmp/logs &")
                :: startup_script_tail)
            (TpuVmTest.startup_script (vm_test_example true)).
Proof.
  split.
  - apply (startup_script_text (vm_test_example false)). reflexivity.
  - apply (startup_script_text (vm_test_example true)). reflexivity.
Defined.

(** C4 (the code departs from the claim). For the test whose only command
    is [exit 7], with use_startup_script True, the startup script puts the
    command in a pipeline with [tee /tmp/logs], starts the pipeline in
    the background and takes [pid=$!] on the next line: the process that
    the script records, waits for and whose status it writes is the last
    one of the pipeline, which is [tee], not the command. *)
Theorem startup_script_waits_for_tee :
  TpuVmTest.startup_script exit_7_test
  = str_join newline
      [ "";
        "bash -c 'exit 7 2>&1 | tee /tmp/logs &";
        "pid=$!";
        "echo $pid > /tmp/main_process_id.txt";
        "wait $pid";
        "exit_status=$?";
        "echo $exit_status > /tmp/process_exit_status.txt'";
        "" ].
Proof. reflexivity. Qed.

(** C9. For every JSonnetTpuVmTest, startup_script returns None, not a
    string; TpuVmTest.startup_script returns the empty string when
    use_startup_script is False. *)
Theorem jsonnet_startup_script_is_None
  (j : JSonnetTpuVmTest.t) (v : TpuVmTest.t) :
  TpuVmTest.use_startup_script v = false ->
  JSonnetTpuVmTest.startup_script j = None
  /\ (forall s : string, JSonnetTpuVmTest.startup_script j <> Some s)
  /\ TpuVmTest.startup_script v = "".
Proof.
  intros Hv. repeat split.
  - intros s H. discriminate H.
  - unfold TpuVmTest.startup_script. now rewrite Hv.
Qed.

Lemma jsonnet_startup_script_is_None_witness :
  JSonnetTpuVmTest.startup_script jsonnet_test_example = None
  /\ (forall s : string,
        JSonnetTpuVmTest.startup_script jsonnet_test_example <> Some s)
  /\ TpuVmTest.startup_script (vm_test_example false) = "".
Proof.
  apply (jsonnet_startup_script_is_None jsonnet_test_example
           (vm_test_example false)).
  reflexivity.
Defined.

(** ** The JSonnet loader *)

(** C10. For every compiled JSonnet test parsed by _from_json_helper, the
    resulting time_out_in_min is the 'timeout' field (in seconds)
    floor-divided by 60; a timeout of less than 60 seconds gives 0
    minutes. *)
Theorem from_json_timeout_minutes
  (float_floordiv : string -> Z -> string)
  (test test_name version size software : pyval) (v : TpuVersion)
  (seconds : Z) (setup exports test_command : pyval) (reserved : bool) :
  compiled_test_fields test test_name version size software (VInt seconds) v ->
  exists c,
    JSonnetTpuVmTest._from_json_helper float_floordiv test setup exports
      test_command reserved = Ok c
    /\ JSonnetTpuVmTest.time_out_in_min c = VInt (seconds / 60)
    /\ (60 * (seconds / 60) <= seconds < 60 * (seconds / 60) + 60)%Z
    /\ ((0 <= seconds < 60)%Z -> JSonnetTpuVmTest.time_out_in_min c = VInt 0).
Proof.
  intros (Hname & (acc & Hacc & Hver & Hsize) & Hv
          & (settings & Hset & Hsoft) & Htimeout).
  assert (Hfloor : (60 * (seconds / 60) <= seconds
                    < 60 * (seconds / 60) + 60)%Z)
    by (pose proof (Z.div_mod seconds 60);
        pose proof (Z.mod_pos_bound seconds 60); lia).
  unfold JSonnetTpuVmTest._from_json_helper.
  rewrite Hname; cbn [bind]. rewrite Hacc; cbn [bind].
  rewrite Hver; cbn [bind]. rewrite Hv; cbn [bind].
  rewrite Hsize; cbn [bind]. rewrite Hset; cbn [bind].
  rewrite Hsoft; cbn [bind]. rewrite Htimeout; cbn [bind py_floordiv_60].
  eexists. split; [reflexivity |].
  cbn [JSonnetTpuVmTest.time_out_in_min].
  split; [reflexivity |]. split; [exact Hfloor |].
  intros Hs. now rewrite (Z.div_small seconds 60 Hs).
Qed.

Lemma from_json_timeout_minutes_witness :
  exists c,
    JSonnetTpuVmTest._from_json_helper (fun r _ => r)
      (compiled_test_example 45) (VStr "") (VStr "") (VList []) true = Ok c
    /\ JSonnetTpuVmTest.time_out_in_min c = VInt (45 / 60)
    /\ (60 * (45 / 60) <= 45 < 60 * (45 / 60) + 60)%Z
    /\ ((0 <= 45 < 60)%Z -> JSonnetTpuVmTest.time_out_in_min c = VInt 0).
Proof.
  apply (from_json_timeout_minutes (fun r _ => r) (compiled_test_example 45)
           (VStr "pt-nightly-mnist-pjrt-func-v2-8-1vm") (VInt 2) (VInt 8)
           (VStr "tpu-ubuntu2204-base") V2 45).
  unfold compiled_test_fields. repeat split.
  - eexists. repeat split; reflexivity.
  - eexists. repeat split; reflexivity.
Defined.

Example from_json_3600 :
  option_map JSonnetTpuVmTest.time_out_in_min
    (match JSonnetTpuVmTest._from_json_helper (fun r _ => r)
             (compiled_test_example 3600) (VStr "") (VStr "") (VList []) true
     with Ok c => Some c | Raise _ => None end)
  = Some (VInt 60).
Proof. reflexivity. Qed.

(** ** Docker images and the date of the import *)














(** ** The maxdiffusion builder *)

Section MaxdiffusionProperties.

Variable GCS_OUTPUT : string.
Variable VIJAYA_S : string.
Variable Team_INFERENCE : string.
Variable SetupMode : Type.
Variable json_decode : string -> result pyval.
Variable json_dumps : pyval -> string.

Local Abbreviation builder :=
  (get_maxdiffusion_inference_nightly_config GCS_OUTPUT VIJAYA_S SetupMode
     json_decode json_dumps).

(** ["metrics.json"] is a file name, not a JSON document: [json.loads]
    rejects it at its first character, whatever the decoder does. *)
Lemma modify_save_metrics_raises (model_configs : dict) (fs : files) :
  _modify_save_metrics json_decode json_dumps "metrics.json" model_configs fs
  = Raise JSONDecodeError.
Proof. reflexivity. Qed.

(** No call of the builder returns a task. *)
Lemma maxdiffusion_config_never_returns
  tpu_version tpu_cores tpu_zone time_out_in_min test_name test_mode
  project_name runtime_version network subnetwork is_tpu_reserved num_slices
  model_configs fs :
  is_ok (builder tpu_version tpu_cores tpu_zone time_out_in_min test_name
           test_mode project_name runtime_version network subnetwork
           is_tpu_reserved num_slices model_configs fs) = false.
Proof.
  unfold get_maxdiffusion_inference_nightly_config.
  destruct (dict_get model_configs "per_device_batch_size"); [| reflexivity].
  destruct (dict_get model_configs "attention"); [| reflexivity].
  destruct (dict_get model_configs "model_name"); reflexivity.
Qed.

(** C1 (the code departs from the claim). With the keys
    per_device_batch_size, attention and model_name in model_configs and a
    supported model_name, get_maxdiffusion_inference_nightly_config does
    not return a task: it raises JSONDecodeError, from
    [json.loads("metrics.json")] in _modify_save_metrics. *)
Theorem maxdiffusion_config_raises
  tpu_version tpu_cores tpu_zone time_out_in_min test_name test_mode
  project_name runtime_version network subnetwork is_tpu_reserved num_slices
  model_configs fs per_device_batch_size attention model_name :
  dict_get model_configs "per_device_batch_size" = Ok per_device_batch_size ->
  dict_get model_configs "attention" = Ok attention ->
  dict_get model_configs "model_name" = Ok (VStr model_name) ->
  In model_name supported_model_names ->
  builder tpu_version tpu_cores tpu_zone time_out_in_min test_name
    test_mode project_name runtime_version network subnetwork
    is_tpu_reserved num_slices model_configs fs
  = Raise JSONDecodeError.
Proof.
  intros Hb Ha Hm _. unfold get_maxdiffusion_inference_nightly_config.
  rewrite Hb, Ha, Hm. reflexivity.
Qed.

Lemma run_model_cmds_last (per_device_batch_size attention : pyval)
  (model_name : string) :
  In model_name supported_model_names ->
  exists cmds,
    maxdiffusion_run_model_cmds GCS_OUTPUT per_device_batch_size attention
      (VStr model_name) = Some cmds
    /\ length cmds = 5
    /\ last cmds "" = "gsutil cp metrics.json " ++ GCS_OUTPUT.
Proof.
  intros [<- | [<- | [<- | []]]]; eexists; repeat split.
Qed.

(** C6 (the code departs from the claim). For a supported model_name the
    run_model_cmds that the builder computes end with the command that
    copies metrics.json to the GCS output location, but the call raises
    JSONDecodeError before a metric config or a task is built: no task is
    returned whose metric config could read metrics.json. *)
Theorem maxdiffusion_metrics_upload
  tpu_version tpu_cores tpu_zone time_out_in_min test_name test_mode
  project_name runtime_version network subnetwork is_tpu_reserved num_slices
  model_configs fs per_device_batch_size attention model_name :
  dict_get model_configs "per_device_batch_size" = Ok per_device_batch_size ->
  dict_get model_configs "attention" = Ok attention ->
  dict_get model_configs "model_name" = Ok (VStr model_name) ->
  In model_name supported_model_names ->
  (exists cmds,
     maxdiffusion_run_model_cmds GCS_OUTPUT per_device_batch_size attention
       (VStr model_name) = Some cmds
     /\ last cmds "" = "gsutil cp metrics.json " ++ GCS_OUTPUT)
  /\ builder tpu_version tpu_cores tpu_zone time_out_in_min test_name
       test_mode project_name runtime_version network subnetwork
       is_tpu_reserved num_slices model_configs fs
     = Raise JSONDecodeError.
Proof.
  intros Hb Ha Hm Hin. split.
  - destruct (run_model_cmds_last per_device_batch_size attention
                model_name Hin) as (cmds & Hc & _ & Hl).
    now exists cmds.
  - unfold get_maxdiffusion_inference_nightly_config.
    rewrite Hb, Ha, Hm. reflexivity.
Qed.

End MaxdiffusionProperties.

Lemma maxdiffusion_config_raises_witness :
  get_maxdiffusion_inference_nightly_config "$GCS_OUTPUT" "owner" unit
    (fun _ => Ok (VDict [])) (fun _ => "{}")
    V5E 4 "us-east1-c" 60 "maxdiffusion-nightly-sdxl" tt
    PROJECT_NAME RUNTIME_IMAGE "default" "default" true 1
    maxdiffusion_model_configs_example []
  = Raise JSONDecodeError.
Proof.
  apply (maxdiffusion_config_raises "$GCS_OUTPUT" "owner" unit
           (fun _ => Ok (VDict [])) (fun _ => "{}")
           V5E 4 "us-east1-c" 60 "maxdiffusion-nightly-sdxl" tt
           PROJECT_NAME RUNTIME_IMAGE "default" "default" true 1
           maxdiffusion_model_configs_example []
           (VInt 2) (VStr "dot_product") "SDXL-Base-1.0");
    try reflexivity.
  simpl. auto.
Defined.

Lemma maxdiffusion_metrics_upload_witness :
  (exists cmds,
     maxdiffusion_run_model_cmds "$GCS_OUTPUT" (VInt 2) (VStr "dot_product")
       (VStr "SDXL-Base-1.0") = Some cmds
     /\ last cmds "" = "gsutil cp metrics.json " ++ "$GCS_OUTPUT")
  /\ get_maxdiffusion_inference_nightly_config "$GCS_OUTPUT" "owner" unit
       (fun _ => Ok (VDict [])) (fun _ => "{}")
       V5E 4 "us-east1-c" 60 "maxdiffusion-nightly-sdxl" tt
       PROJECT_NAME RUNTIME_IMAGE "default" "default" true 1
       maxdiffusion_model_configs_example []
     = Raise JSONDecodeError.
Proof.
  apply (maxdiffusion_metrics_upload "$GCS_OUTPUT" "owner" unit
           (fun _ => Ok (VDict [])) (fun _ => "{}")
           V5E 4 "us-east1-c" 60 "maxdiffusion-nightly-sdxl" tt
           PROJECT_NAME RUNTIME_IMAGE "default" "default" true 1
           maxdiffusion_model_configs_example []
           (VInt 2) (VStr "dot_product") "SDXL-Base-1.0");
    try reflexivity.
  simpl. auto.
Defined.

Example run_model_cmds_base :
  maxdiffusion_run_model_cmds "$GCS_OUTPUT" (VInt 2) (VStr "dot_product")
    (VStr "SDXL-Base-1.0")
  = Some
      [ "source .env/bin/activate";
        "cd maxdiffusion";
        "cd .. python -m src.maxdiffusion.generate_sdxl src/maxdiffusion/configs/base_xl.yml run_name="
        ++ dq ++ "my_run" ++ dq ++ " per_device_batch_size=2 attention="
        ++ dq ++ "dot_product" ++ dq ++ " ";
        "cd ..";
        "gsutil cp metrics.json $GCS_OUTPUT" ].
Proof. reflexivity. Qed.

Example run_model_cmds_unbound :
  maxdiffusion_run_model_cmds "$GCS_OUTPUT" (VInt 2) (VStr "dot_product")
    (VStr "SD-2.1") = None.
Proof. reflexivity. Qed.

(** ** [generate_model_configs] *)

Section GenerateModelConfigsProperties.

Variable SetupMode : Type.
Variable STABLE : SetupMode.
Variable Task : Type.
Variable config : config_kwargs SetupMode -> result Task.

Local Abbreviation generate :=
  (generate_model_configs SetupMode STABLE Task config).

(** One step of the function, in a hypothesis that says it returned. *)
Ltac returned_step H :=
  cbn [bind read_local py_eq_TpuVersion TpuVersion_eqb] in H;
  lazymatch type of H with
  | bind ?r _ = Ok _ =>
      let E := fresh "E" in
      destruct r eqn:E; cbn [bind] in H; [| discriminate H]
  | match ?x with _ => _ end = Ok _ =>
      let E := fresh "E" in
      destruct x eqn:E; try discriminate H
  end.

(** C5. For every invocation of generate_model_configs with tpu_version
    TpuVersion.V5E, the task produced is the one that [config] builds from
    project 'tpu-prod-env-automated', zone 'us-east1-c', network
    V5_NETWORKS, subnetwork V5E_SUBNETWORKS and runtime version
    'v2-alpha-tpuv5-lite'. *)
Theorem v5e_task_configuration
  prefix name sweep axis_order attention ici_parallelism
  per_device_batch_size request_rate warmup_mode tpu_cores (t : Task) :
  generate prefix name sweep axis_order attention ici_parallelism
    per_device_batch_size request_rate warmup_mode (VTpuVersion V5E) tpu_cores
  = Ok t ->
  exists kw,
    config kw = Ok t
    /\ kw_tpu_version _ kw = VTpuVersion V5E
    /\ kw_project_name _ kw = "tpu-prod-env-automated"
    /\ kw_tpu_zone _ kw = "us-east1-c"
    /\ kw_network _ kw = V5_NETWORKS
    /\ kw_subnetwork _ kw = V5E_SUBNETWORKS
    /\ kw_runtime_version _ kw = "v2-alpha-tpuv5-lite".
Proof.
  unfold generate_model_configs. intros H.
  repeat returned_step H.
  eexists. split; [exact H |]. repeat split.
Qed.

(** C8, amended. For every call of generate_model_configs with a
    TpuVersion other than V5E, no task is returned: the call raises.  When
    the statements before the call of [config] run to the end, the
    exception is NameError: the UnboundLocalError of [zone]. *)
Theorem other_version_raises
  prefix name sweep axis_order attention ici_parallelism
  per_device_batch_size request_rate warmup_mode tpu_cores (v : TpuVersion) :
  v <> V5E ->
  is_ok (generate prefix name sweep axis_order attention ici_parallelism
           per_device_batch_size request_rate warmup_mode (VTpuVersion v)
           tpu_cores) = false
  /\ (statements_before_call_succeed sweep axis_order attention
        ici_parallelism ->
      generate prefix name sweep axis_order attention ici_parallelism
        per_device_batch_size request_rate warmup_mode (VTpuVersion v)
        tpu_cores
      = Raise (UnboundLocalError "zone")
      /\ isinstance_NameError (UnboundLocalError "zone") = true).
Proof.
  intros Hv. split.
  - match goal with |- is_ok ?r = false => destruct r as [t|e] eqn:H end;
      [exfalso | reflexivity].
    unfold generate_model_configs in H.
    destruct v; try congruence; repeat returned_step H;
      cbn [bind read_local py_eq_TpuVersion TpuVersion_eqb] in H;
      discriminate H.
  - intros ([abc Hici] & (prefill & ar & Haxis) & Hkeys & [a4 Hatt]).
    split; [| reflexivity].
    unfold generate_model_configs, copy_key.
    rewrite Hici, Haxis, Hatt. destruct abc as [[a b] c]. cbn [bind].
    repeat match goal with
           | |- context [py_getitem sweep ?k] =>
               let x := fresh "x" in
               let Hx := fresh "Hx" in
               destruct (Hkeys k ltac:(simpl; tauto)) as [x Hx];
               rewrite Hx; cbn [bind]
           end.
    destruct v; try congruence; reflexivity.
Qed.

End GenerateModelConfigsProperties.

Lemma v5e_task_configuration_witness :
  exists kw : config_kwargs unit,
    Ok kw
    = generate_model_configs unit tt (config_kwargs unit) Ok
        test_name_prefix "llama2-7b-base-w-b16-kv-b16" sweep_example
        (VStr "2103-2013") (VStr "autoselected")
        (VTuple [VInt 1; VInt 1; VInt (-1)]) (VInt 10) (VFloat "0.0")
        (VStr "full") (VTpuVersion V5E) (VInt 8)
    /\ kw_tpu_version _ kw = VTpuVersion V5E
    /\ kw_project_name _ kw = "tpu-prod-env-automated"
    /\ kw_tpu_zone _ kw = "us-east1-c"
    /\ kw_network _ kw = V5_NETWORKS
    /\ kw_subnetwork _ kw = V5E_SUBNETWORKS
    /\ kw_runtime_version _ kw = "v2-alpha-tpuv5-lite".
Proof.
  destruct (generate_model_configs unit tt (config_kwargs unit) Ok
              test_name_prefix "llama2-7b-base-w-b16-kv-b16" sweep_example
              (VStr "2103-2013") (VStr "autoselected")
              (VTuple [VInt 1; VInt 1; VInt (-1)]) (VInt 10) (VFloat "0.0")
              (VStr "full") (VTpuVersion V5E) (VInt 8)) as [t|e] eqn:E.
  - destruct (v5e_task_configuration unit tt (config_kwargs unit) Ok
                _ _ _ _ _ _ _ _ _ _ t E) as (kw & Hkw & Hfields).
    exists kw. split; [exact Hkw | exact Hfields].
  - vm_compute in E. discriminate E.
Defined.

(** C8, as stated, fails: with TpuVersion.V5P and an axis_order without
    the dash, the call raises ValueError, which is not a NameError. *)
Lemma other_version_ValueError :
  generate_model_configs unit tt (config_kwargs unit) Ok
    test_name_prefix "llama2-7b-base-w-b16-kv-b16" sweep_example
    (VStr "21032013") (VStr "autoselected")
    (VTuple [VInt 1; VInt 1; VInt (-1)]) (VInt 10) (VFloat "0.0")
    (VStr "full") (VTpuVersion V5P) (VInt 8)
  = Raise ValueError
  /\ isinstance_NameError ValueError = false.
Proof. split; reflexivity. Qed.

Lemma other_version_raises_witness :
  generate_model_configs unit tt (config_kwargs unit) Ok
    test_name_prefix "llama2-7b-base-w-b16-kv-b16" sweep_example
    (VStr "2103-2013") (VStr "autoselected")
    (VTuple [VInt 1; VInt 1; VInt (-1)]) (VInt 10) (VFloat "0.0")
    (VStr "full") (VTpuVersion V5P) (VInt 8)
  = Raise (UnboundLocalError "zone")
  /\ isinstance_NameError (UnboundLocalError "zone") = true.
Proof.
  apply (other_version_raises unit tt (config_kwargs unit) Ok
           test_name_prefix "llama2-7b-base-w-b16-kv-b16" sweep_example
           (VStr "2103-2013") (VStr "autoselected")
           (VTuple [VInt 1; VInt 1; VInt (-1)]) (VInt 10) (VFloat "0.0")
           (VStr "full") (VInt 8) V5P).
  - discriminate.
  - unfold statements_before_call_succeed. repeat split.
    + eexists. reflexivity.
    + do 2 eexists. reflexivity.
    + intros k Hk. simpl in Hk.
      repeat (destruct Hk as [<- | Hk]; [eexists; vm_compute; reflexivity |]).
      destruct Hk.
    + eexists. reflexivity.
Defined.

(** ** The sweep of the DAG *)

(** Whatever the innermost statement does, the loops of the DAG run it
    once at each element of [dag_points], in order, and stop at the first
    exception. *)
Lemma dag_loop_runs_body_at_points (B : Type)
  (body : string -> pyval -> sweep_point -> result B) :
  dag_loop body
  = map_result (fun x => body (fst (fst x)) (snd (fst x)) (snd x)) dag_points.
Proof.
  vm_compute.
  repeat match goal with
         | |- context [match body ?n ?s ?p with _ => _ end] =>
             destruct (body n s p); [| reflexivity]
         end.
  reflexivity.
Qed.

Lemma str_in_In (x : string) (l : list string) : str_in x l = true <-> In x l.
Proof.
  unfold str_in. rewrite existsb_exists. split.
  - intros (y & Hy & E). apply String.eqb_eq in E. now subst.
  - intros H. exists x. split; [exact H | apply String.eqb_refl].
Qed.

Lemma distinct_strings_NoDup (l : list string) :
  distinct_strings l = true -> NoDup l.
Proof.
  induction l as [|x l IH]; simpl; intros H; constructor.
  - apply andb_true_iff in H as [H _]. intros Hin.
    apply str_in_In in Hin. now rewrite Hin in H.
  - apply IH. now apply andb_true_iff in H as [_ H].
Qed.

Lemma dag_points_NoDup : NoDup dag_points.
Proof.
  apply (NoDup_map_inv point_label).
  apply distinct_strings_NoDup. vm_compute. reflexivity.
Qed.

Ltac in_key_solved :=
  eexists; split; [vm_compute; reflexivity | simpl; tauto].

Lemma in_key_lookup (d : pyval) (k : string) (items : list pyval) (x : pyval) :
  py_getitem d k = Ok (VList items) -> in_key d k x -> In x items.
Proof.
  intros E (items' & E' & H). rewrite E in E'. now injection E' as <-.
Qed.

Ltac in_key_inverted H :=
  eapply in_key_lookup in H; [| vm_compute; reflexivity];
  simpl in H.

(** Find the position of a point in [dag_points]. *)
Ltac point_found n :=
  lazymatch n with
  | 18 => fail "not a point of the DAG"
  | _ =>
      first [ solve [apply (nth_error_In dag_points n);
                     vm_compute; reflexivity]
            | point_found (S n) ]
  end.

Ltac point_in_product H :=
  first
    [ discriminate H
    | injection H as <- <-;
      split; [reflexivity |];
      unfold in_cartesian_product;
      cbn [sp_tpu_version sp_tpu_cores sp_axis_order sp_attention
           sp_ici_parallelism sp_per_device_batch_size sp_request_rate
           sp_warmup_mode];
      repeat split; in_key_solved ].

(** Every point that the DAG visits for [name] is an element of the
    product of the sweep lists of [name]. *)
Lemma dag_points_in_product (name : string) (s : pyval) (p : sweep_point) :
  In name run_configs ->
  In (name, s, p) dag_points ->
  exists sweep,
    tests_lookup name = Ok sweep /\ s = sweep /\ in_cartesian_product sweep p.
Proof.
  intros Hin H. vm_compute in Hin.
  destruct Hin as [<- | [<- | [<- | [<- | [<- | [<- | []]]]]]].
  all: eexists; (split; [vm_compute; reflexivity |]).
  all: vm_compute in H.
  all: repeat (destruct H as [H | H]; [point_in_product H |]).
  all: destruct H.
Qed.

(** Every element of the product of the sweep lists of [name] is visited. *)
Lemma product_in_dag_points (name : string) (sweep : pyval) (p : sweep_point) :
  In name run_configs ->
  tests_lookup name = Ok sweep ->
  in_cartesian_product sweep p ->
  In (name, sweep, p) dag_points.
Proof.
  intros Hin E. vm_compute in Hin.
  destruct Hin as [<- | [<- | [<- | [<- | [<- | [<- | []]]]]]].
  all: vm_compute in E; injection E as <-.
  all: intros (H1 & H2 & H3 & H4 & H5 & H6 & H7);
    destruct p as [tv tc ao att ici pdbs rr wm];
    cbn [sp_tpu_version sp_tpu_cores sp_axis_order sp_attention
         sp_ici_parallelism sp_per_device_batch_size sp_request_rate
         sp_warmup_mode] in H1, H2, H3, H4, H5, H6, H7;
    in_key_inverted H1; in_key_inverted H2; in_key_inverted H3;
    in_key_inverted H4; in_key_inverted H5; in_key_inverted H6;
    in_key_inverted H7;
    repeat match goal with
           | H : _ \/ _ |- _ => destruct H as [H | H]
           | H : False |- _ => destruct H
           | H : VTuple _ = VTuple _ |- _ => injection H as <- <-
           end; subst;
    point_found 0.
Qed.

Lemma tests_lookup_run_configs (name : string) :
  In name run_configs -> exists sweep, tests_lookup name = Ok sweep.
Proof.
  intros Hin. vm_compute in Hin.
  destruct Hin as [<- | [<- | [<- | [<- | [<- | [<- | []]]]]]];
    eexists; vm_compute; reflexivity.
Qed.

Lemma map_result_total {A B : Type} (f : A -> result B) (l : list A) :
  (forall x, In x l -> exists b, f x = Ok b) ->
  exists bs, map_result f l = Ok bs /\ length bs = length l.
Proof.
  induction l as [|x l IH]; intros H; simpl.
  - now exists [].
  - destruct (H x (or_introl eq_refl)) as [b Hb].
    destruct IH as (bs & Hbs & Hlen); [intros y Hy; apply H; now right |].
    rewrite Hb, Hbs. exists (b :: bs). simpl. now rewrite Hlen.
Qed.

Section DagProperties.

Variable SetupMode : Type.
Variable STABLE : SetupMode.
Variable Task : Type.
Variable config : config_kwargs SetupMode -> result Task.

(** At every point of the DAG the statements of [generate_model_configs]
    run to the call of [config]. *)
Lemma task_at_calls_config (x : string * pyval * sweep_point) :
  In x dag_points -> exists kw, task_at STABLE config x = config kw.
Proof.
  intros H. vm_compute in H.
  repeat (destruct H as [<- | H];
          [eexists; unfold task_at; vm_compute; reflexivity |]).
  destruct H.
Qed.

(** C2. For every configuration name in run_configs (none is in
    skip_configs), the DAG builds one task per element of the Cartesian
    product tpu_version_cores x axis_order x attention x ici_parallelisms
    x per_device_batch_sizes x request_rate x warmup_mode of the sweep
    lists of that configuration: the tasks are the calls of
    generate_model_configs at the points visited, in order; no point is
    visited twice; the points visited for a configuration are exactly the
    elements of its product; and when [config] raises nowhere, every call
    returns its task. *)
Theorem dag_builds_one_task_per_point :
  dag STABLE config = map_result (task_at STABLE config) dag_points
  /\ NoDup dag_points
  /\ (forall name,
        In name run_configs -> str_in name skip_configs = false ->
        exists sweep,
          tests_lookup name = Ok sweep
          /\ forall s p,
               In (name, s, p) dag_points
               <-> s = sweep /\ in_cartesian_product sweep p)
  /\ ((forall kw, exists t, config kw = Ok t) ->
      exists tasks,
        dag STABLE config = Ok tasks /\ length tasks = length dag_points).
Proof.
  assert (Hdag : dag STABLE config
                 = map_result (task_at STABLE config) dag_points)
    by apply dag_loop_runs_body_at_points.
  split; [exact Hdag |]. split; [apply dag_points_NoDup |]. split.
  - intros name Hin _.
    destruct (tests_lookup_run_configs name Hin) as [sweep Hsweep].
    exists sweep. split; [exact Hsweep |]. intros s p. split.
    + intros H.
      destruct (dag_points_in_product name s p Hin H)
        as (sweep' & Hsweep' & -> & Hp).
      rewrite Hsweep in Hsweep'. injection Hsweep' as <-.
      split; [reflexivity | exact Hp].
    + intros [-> Hp]. now apply product_in_dag_points.
  - intros Htotal. rewrite Hdag. apply map_result_total.
    intros x Hx. destruct (task_at_calls_config x Hx) as [kw ->].
    apply Htotal.
Qed.

End DagProperties.

Lemma dag_builds_one_task_per_point_witness :
  exists sweep,
    tests_lookup "llama2-7b-base-w-b16-kv-b16" = Ok sweep
    /\ forall s p,
         In ("llama2-7b-base-w-b16-kv-b16", s, p) dag_points
         <-> s = sweep /\ in_cartesian_product sweep p.
Proof.
  apply (proj1 (proj2 (proj2
           (dag_builds_one_task_per_point unit tt (config_kwargs unit) Ok)))).
  - vm_compute. tauto.
  - reflexivity.
Defined.

Example dag_builds_18_tasks :
  option_map (@length _)
    (match dag (Task := config_kwargs unit) tt Ok with
     | Ok tasks => Some tasks
     | Raise _ => None
     end) = Some 18.
Proof. vm_compute. reflexivity. Qed.

(* ===================================================================== *)
(** * Further properties of the code                                      *)
(* ===================================================================== *)

(** ** Printing integers *)

Lemma str_of_int_unfold (z : Z) :
  str_of_int z = NilEmpty.string_of_int (Z.to_int z).
Proof.
  unfold str_of_int. destruct z as [|p|p]; simpl; try reflexivity.
  - pose proof (DecimalPos.Unsigned.to_uint_nonnil p) as H.
    destruct (Pos.to_uint p); [congruence | reflexivity ..].
  - pose proof (DecimalPos.Unsigned.to_uint_nonnil p) as H.
    destruct (Pos.to_uint p); [congruence | reflexivity ..].
Qed.

Lemma str_of_int_inj (a b : Z) : str_of_int a = str_of_int b -> a = b.
Proof.
  rewrite !str_of_int_unfold. intros H.
  apply (f_equal NilEmpty.int_of_string) in H.
  rewrite !NilEmpty.isi in H. injection H as H.
  now apply DecimalZ.to_int_inj.
Qed.

(** ** Accelerator names and benchmark ids *)

(** X1. The name of a TPU type tells its version and its number of cores:
    two [Tpu] with integer cores and the same name have the same version
    and the same cores. *)
Theorem tpu_name_inj (a b : Tpu.t) (m n : Z) :
  Tpu.cores a = VInt m -> Tpu.cores b = VInt n ->
  Tpu.name a = Tpu.name b ->
  Tpu.version a = Tpu.version b /\ m = n.
Proof.
  unfold Tpu.name. intros -> -> H. cbn [py_str py_repr] in H.
  destruct (Tpu.version a), (Tpu.version b); cbn in H;
    try (injection H as H; discriminate H);
    try (do 2 (injection H as H); discriminate H);
    try (split; [reflexivity |]; apply str_of_int_inj;
         repeat (injection H as H); exact H).
Qed.

Lemma tpu_name_inj_witness :
  Tpu.version (Tpu.mk V4 (VInt 8) VNone "default" "default" false)
  = Tpu.version (Tpu.mk V4 (VInt 8) (VStr "tpu-vm-v4-base") "n" "s" true)
  /\ 8%Z = 8%Z.
Proof.
  apply (tpu_name_inj
           (Tpu.mk V4 (VInt 8) VNone "default" "default" false)
           (Tpu.mk V4 (VInt 8) (VStr "tpu-vm-v4-base") "n" "s" true) 8 8);
    reflexivity.
Defined.

(** X2. Looking a TPU version up by value gives back the member that has
    this value, and nothing else: [TpuVersion(s)] returns [v] exactly when
    [s] is the value of [v], and raises ValueError for every other
    string. *)
Theorem TpuVersion_lookup (s : string) (v : TpuVersion) :
  (TpuVersion_of_value s = Ok v <-> TpuVersion_value v = s)
  /\ (TpuVersion_of_value s = Raise ValueError
      <-> forall w, TpuVersion_value w <> s).
Proof.
  assert (Hround : forall w, TpuVersion_of_value (TpuVersion_value w) = Ok w)
    by (intros []; reflexivity).
  assert (Hsound : forall w, TpuVersion_of_value s = Ok w ->
                              TpuVersion_value w = s).
  { unfold TpuVersion_of_value. intros w.
    destruct (find _ _) as [x|] eqn:E; [| discriminate].
    apply find_some in E as [_ E]. apply String.eqb_eq in E.
    now intros [= <-]. }
  split; [split; [apply Hsound | intros <-; apply Hround] |]. split.
  - intros H w <-. rewrite Hround in H. discriminate H.
  - intros H. unfold TpuVersion_of_value.
    destruct (find _ _) as [x|] eqn:E; [| reflexivity].
    apply find_some in E as [_ E]. apply String.eqb_eq in E.
    now destruct (H x).
Qed.

(** X3. For one test name and one accelerator, the benchmark id tells the
    number of slices: two TpuVmTest (or two TpuGkeTest) that differ only
    in num_slices have different benchmark ids. *)
Theorem benchmark_id_tells_num_slices :
  (forall a b : TpuVmTest.t,
     TpuVmTest.test_name a = TpuVmTest.test_name b ->
     TpuVmTest.accelerator a = TpuVmTest.accelerator b ->
     TpuVmTest.benchmark_id a = TpuVmTest.benchmark_id b ->
     TpuVmTest.num_slices a = TpuVmTest.num_slices b)
  /\ (forall a b : TpuGkeTest.t,
        TpuGkeTest.test_name a = TpuGkeTest.test_name b ->
        TpuGkeTest.accelerator a = TpuGkeTest.accelerator b ->
        TpuGkeTest.benchmark_id a = TpuGkeTest.benchmark_id b ->
        TpuGkeTest.num_slices a = TpuGkeTest.num_slices b).
Proof.
  assert (Hid : forall (tn name : string) (m n : Z),
    (if Z.eqb m 1 then tn ++ "-" ++ name
     else tn ++ "-" ++ str_of_int m ++ "x" ++ name)
    = (if Z.eqb n 1 then tn ++ "-" ++ name
       else tn ++ "-" ++ str_of_int n ++ "x" ++ name) -> m = n).
  { intros tn name m n H.
    destruct (Z.eqb m 1) eqn:Em, (Z.eqb n 1) eqn:En;
      do 2 apply append_inj_l in H.
    - apply Z.eqb_eq in Em, En. congruence.
    - exfalso. apply (f_equal String.length) in H.
      rewrite length_append in H. simpl in H. lia.
    - exfalso. apply (f_equal String.length) in H.
      rewrite length_append in H. simpl in H. lia.
    - apply append_inj_tail in H as [H _]; [| reflexivity].
      now apply str_of_int_inj. }
  split; intros a b Hn Ha H.
  - unfold TpuVmTest.benchmark_id in H. rewrite Hn, Ha in H.
    exact (Hid _ _ _ _ H).
  - unfold TpuGkeTest.benchmark_id in H. rewrite Hn, Ha in H.
    exact (Hid _ _ _ _ H).
Qed.

Lemma benchmark_id_tells_num_slices_witness :
  TpuVmTest.num_slices (vm_test_example false)
  = TpuVmTest.num_slices (vm_test_example true).
Proof.
  apply (proj1 benchmark_id_tells_num_slices
           (vm_test_example false) (vm_test_example true));
    reflexivity.
Defined.

(** ** Scripts as joined commands *)

Lemma str_split_no_sep (sep : ascii) (s : string) :
  str_contains_char sep s = false -> str_split sep s = [s].
Proof.
  unfold str_contains_char.
  induction s as [|c s IH]; simpl; [reflexivity |].
  intros H. apply orb_false_iff in H as [Hc Hs].
  rewrite Ascii.eqb_sym, Hc. now rewrite (IH Hs).
Qed.

Lemma str_split_append (sep : ascii) (a rest : string) :
  str_contains_char sep a = false ->
  str_split sep (a ++ String sep rest) = a :: str_split sep rest.
Proof.
  unfold str_contains_char.
  induction a as [|c a IH]; simpl.
  - intros _. now rewrite Ascii.eqb_refl.
  - intros H. apply orb_false_iff in H as [Hc Ha].
    rewrite Ascii.eqb_sym, Hc. now rewrite (IH Ha).
Qed.

(** Splitting undoes joining when there is something to join and no item
    holds the separator. *)
Lemma str_split_join (sep : ascii) (items : list string) :
  items <> [] ->
  Forall (fun s => str_contains_char sep s = false) items ->
  str_split sep (str_join (String sep "") items) = items.
Proof.
  induction items as [|x [|y rest] IH]; intros Hne Hall.
  - congruence.
  - simpl. apply str_split_no_sep. now inversion Hall.
  - change (str_join (String sep "") (x :: y :: rest))
      with (x ++ String sep (str_join (String sep "") (y :: rest))).
    inversion Hall as [|? ? Hx Hrest]; subst.
    rewrite str_split_append by exact Hx.
    f_equal. apply IH; [discriminate | exact Hrest].
Qed.

Lemma str_join_app (sep : string) (a b : list string) :
  a <> [] -> b <> [] ->
  str_join sep (a ++ b)%list = str_join sep a ++ sep ++ str_join sep b.
Proof.
  intros Ha Hb. induction a as [|x [|y rest] IH]; [congruence | |].
  - destruct b as [|z b]; [congruence | reflexivity].
  - change (str_join sep ((x :: y :: rest) ++ b)%list)
      with (x ++ sep ++ str_join sep ((y :: rest) ++ b)%list).
    rewrite IH by discriminate.
    change (str_join sep (x :: y :: rest))
      with (x ++ sep ++ str_join sep (y :: rest)).
    now rewrite !append_assoc.
Qed.

(** X4. The commands of a test can be read back from its scripts: when the
    list of commands is not empty and no command holds a newline,
    splitting setup_script or test_script of a TpuVmTest or GpuVmTest at
    the newlines gives set_up_cmds or run_model_cmds again, and so does
    splitting the scripts of a TpuGkeTest at the semicolons when no
    command holds a semicolon. *)
Theorem scripts_split_back :
  (forall v : TpuVmTest.t,
     (TpuVmTest.set_up_cmds v <> [] ->
      no_char (ascii_of_nat 10) (TpuVmTest.set_up_cmds v) ->
      str_split (ascii_of_nat 10) (TpuVmTest.setup_script v)
      = TpuVmTest.set_up_cmds v)
     /\ (TpuVmTest.run_model_cmds v <> [] ->
         no_char (ascii_of_nat 10) (TpuVmTest.run_model_cmds v) ->
         str_split (ascii_of_nat 10) (TpuVmTest.test_script v)
         = TpuVmTest.run_model_cmds v))
  /\ (forall g : GpuVmTest.t,
        (GpuVmTest.set_up_cmds g <> [] ->
         no_char (ascii_of_nat 10) (GpuVmTest.set_up_cmds g) ->
         str_split (ascii_of_nat 10) (GpuVmTest.setup_script g)
         = GpuVmTest.set_up_cmds g)
        /\ (GpuVmTest.run_model_cmds g <> [] ->
            no_char (ascii_of_nat 10) (GpuVmTest.run_model_cmds g) ->
            str_split (ascii_of_nat 10) (GpuVmTest.test_script g)
            = GpuVmTest.run_model_cmds g))
  /\ (forall k : TpuGkeTest.t,
        (TpuGkeTest.set_up_cmds k <> [] ->
         no_char ";" (TpuGkeTest.set_up_cmds k) ->
         str_split ";" (TpuGkeTest.setup_script k) = TpuGkeTest.set_up_cmds k)
        /\ (TpuGkeTest.run_model_cmds k <> [] ->
            no_char ";" (TpuGkeTest.run_model_cmds k) ->
            str_split ";" (TpuGkeTest.test_script k)
            = TpuGkeTest.run_model_cmds k)).
Proof.
  repeat split; intros Hne Hall; now apply str_split_join.
Qed.

Lemma scripts_split_back_witness :
  str_split (ascii_of_nat 10) (TpuVmTest.setup_script (vm_test_example false))
  = ["pip install x"; "cd x"].
Proof.
  apply (proj1 (proj1 scripts_split_back (vm_test_example false))).
  - discriminate.
  - repeat constructor.
Defined.

(** A command that holds the separator is not read back: a TpuGkeTest
    with the one command [a;b] has the script of a test with the two
    commands [a] and [b]. *)
Example gke_script_ambiguous :
  str_join ";" ["a;b"] = str_join ";" ["a"; "b"].
Proof. reflexivity. Qed.

(** X5. With both lists of commands non-empty, the command that the
    startup script of a TpuVmTest wraps is setup_script, a newline, then
    test_script. *)
Theorem startup_script_wraps_both_scripts (c : TpuVmTest.t) :
  TpuVmTest.use_startup_script c = true ->
  TpuVmTest.set_up_cmds c <> [] ->
  TpuVmTest.run_model_cmds c <> [] ->
  TpuVmTest.startup_script c
  = str_join newline
      ("" :: ("bash -c '" ++ TpuVmTest.setup_script c ++ newline
              ++ TpuVmTest.test_script c ++ " 2>&1 | tee /tmp/logs &")
          :: startup_script_tail).
Proof.
  intros Hu Hs Hr. unfold TpuVmTest.startup_script. rewrite Hu.
  cbn [Bool.eqb]. rewrite (str_join_app newline _ _ Hs Hr).
  unfold TpuVmTest.setup_script, TpuVmTest.test_script.
  cbn [str_join startup_script_tail]. rewrite !append_assoc. reflexivity.
Qed.

Lemma startup_script_wraps_both_scripts_witness :
  TpuVmTest.startup_script (vm_test_example true)
  = str_join newline
      ("" :: ("bash -c '" ++ TpuVmTest.setup_script (vm_test_example true)
              ++ newline ++ TpuVmTest.test_script (vm_test_example true)
              ++ " 2>&1 | tee /tmp/logs &")
          :: startup_script_tail).
Proof.
  apply (startup_script_wraps_both_scripts (vm_test_example true));
    [reflexivity | discriminate | discriminate].
Defined.

(** ** Loading compiled JSonnet tests *)

Lemma TpuVersion_of_value_sound (s : string) (v : TpuVersion) :
  TpuVersion_of_value s = Ok v -> TpuVersion_value v = s.
Proof.
  unfold TpuVersion_of_value.
  destruct (find _ _) as [x|] eqn:E; [| discriminate].
  apply find_some in E as [_ E]. apply String.eqb_eq in E.
  now intros [= <-].
Qed.

Ltac bind_returned H :=
  lazymatch type of H with
  | bind ?r _ = Ok _ =>
      let E := fresh "E" in
      destruct r eqn:E; cbn [bind] in H; [| discriminate H]
  end.

(** What [_from_json_helper] returns, when it returns. *)
Lemma from_json_helper_returned
  (float_floordiv : string -> Z -> string)
  (test setup exports test_command : pyval) (reserved : bool)
  (c : JSonnetTpuVmTest.t) :
  JSonnetTpuVmTest._from_json_helper float_floordiv test setup exports
    test_command reserved = Ok c ->
  exists test_name version size software timeout v minutes,
    compiled_test_fields test test_name version size software timeout v
    /\ py_floordiv_60 float_floordiv timeout = Ok minutes
    /\ c = JSonnetTpuVmTest.mk
             (Tpu.mk v size software "default" "default" reserved)
             minutes "unowned" test_name setup exports test_command 1 false.
Proof.
  unfold JSonnetTpuVmTest._from_json_helper. intros H.
  repeat bind_returned H. injection H as <-.
  do 7 eexists. split; [| split; [eassumption | reflexivity]].
  unfold compiled_test_fields. repeat split; eauto.
Qed.

(** X6. A test parsed by _from_json_helper has the accelerator named
    after the JSON: 'v', the 'version' of the 'accelerator' as a string,
    a dash, and its 'size'; it runs on the 'default' network and
    subnetwork with the reserved flag given, has one slice, no startup
    script and the owner 'unowned', and carries setup, exports and
    test_command as they were passed. *)
Theorem from_json_helper_result
  (float_floordiv : string -> Z -> string)
  (test setup exports test_command : pyval) (reserved : bool)
  (c : JSonnetTpuVmTest.t) :
  JSonnetTpuVmTest._from_json_helper float_floordiv test setup exports
    test_command reserved = Ok c ->
  (exists acc version size,
     py_getitem test "accelerator" = Ok acc
     /\ py_getitem acc "version" = Ok version
     /\ py_getitem acc "size" = Ok size
     /\ Tpu.name (JSonnetTpuVmTest.accelerator c)
        = "v" ++ py_str version ++ "-" ++ py_str size)
  /\ Tpu.network (JSonnetTpuVmTest.accelerator c) = "default"
  /\ Tpu.subnetwork (JSonnetTpuVmTest.accelerator c) = "default"
  /\ Tpu.reserved (JSonnetTpuVmTest.accelerator c) = reserved
  /\ JSonnetTpuVmTest.num_slices c = 1%Z
  /\ JSonnetTpuVmTest.use_startup_script c = false
  /\ JSonnetTpuVmTest.task_owner c = "unowned"
  /\ JSonnetTpuVmTest.setup c = setup
  /\ JSonnetTpuVmTest.exports c = exports
  /\ JSonnetTpuVmTest.test_command c = test_command.
Proof.
  intros H.
  destruct (from_json_helper_returned _ _ _ _ _ _ _ H)
    as (name & version & size & software & timeout & v & minutes
        & (_ & (acc & Hacc & Hver & Hsize) & Hv & _) & _ & ->).
  split; [| repeat split].
  exists acc, version, size. repeat split; try assumption.
  unfold Tpu.name. cbn [JSonnetTpuVmTest.accelerator Tpu.version Tpu.cores].
  now rewrite (TpuVersion_of_value_sound _ _ Hv).
Qed.

Lemma from_json_helper_result_witness :
  exists c,
    JSonnetTpuVmTest._from_json_helper (fun r _ => r)
      (compiled_test_example 3600) (VStr "") (VStr "") (VList []) true = Ok c
    /\ Tpu.name (JSonnetTpuVmTest.accelerator c) = "v2-8"
    /\ JSonnetTpuVmTest.num_slices c = 1%Z.
Proof.
  destruct (JSonnetTpuVmTest._from_json_helper (fun r _ => r)
              (compiled_test_example 3600) (VStr "") (VStr "") (VList [])
              true) as [c|e] eqn:E.
  - exists c. split; [reflexivity |].
    destruct (from_json_helper_result _ _ _ _ _ _ c E)
      as ((acc & version & size & Hacc & Hver & Hsize & Hname) & _ & _ & _
          & Hslices & _).
    split; [| exact Hslices].
    vm_compute in Hacc. injection Hacc as <-.
    vm_compute in Hver. injection Hver as <-.
    vm_compute in Hsize. injection Hsize as <-.
    exact Hname.
  - vm_compute in E. discriminate E.
Defined.

(** X7. _from_json_helper returns exactly for the tests that have
    'testName', an 'accelerator' with a 'version' that names a TPU
    version and a 'size', 'tpuSettings' with 'softwareVersion', and a
    'timeout' that is a number; for every other test it raises. *)
Theorem from_json_helper_returns_iff
  (float_floordiv : string -> Z -> string)
  (test setup exports test_command : pyval) (reserved : bool) :
  is_ok (JSonnetTpuVmTest._from_json_helper float_floordiv test setup exports
           test_command reserved) = true
  <-> exists test_name version size software timeout v,
        compiled_test_fields test test_name version size software timeout v
        /\ is_number timeout.
Proof.
  split.
  - destruct (JSonnetTpuVmTest._from_json_helper _ _ _ _ _ _) as [c|e] eqn:H;
      [intros _ | discriminate].
    destruct (from_json_helper_returned _ _ _ _ _ _ _ H)
      as (name & version & size & software & timeout & v & minutes
          & Hfields & Hmin & _).
    exists name, version, size, software, timeout, v.
    split; [exact Hfields |].
    destruct timeout; try discriminate Hmin; exact I.
  - intros (name & version & size & software & timeout & v
            & (Hname & (acc & Hacc & Hver & Hsize) & Hv
               & (settings & Hset & Hsoft) & Htimeout) & Hnum).
    unfold JSonnetTpuVmTest._from_json_helper.
    rewrite Hname; cbn [bind]. rewrite Hacc; cbn [bind].
    rewrite Hver; cbn [bind]. rewrite Hv; cbn [bind].
    rewrite Hsize; cbn [bind]. rewrite Hset; cbn [bind].
    rewrite Hsoft; cbn [bind]. rewrite Htimeout; cbn [bind].
    destruct timeout; try destruct Hnum; reflexivity.
Qed.

Example from_json_helper_string_timeout :
  JSonnetTpuVmTest._from_json_helper (fun r _ => r)
    (VDict (dict_set
       match compiled_test_example 3600 with VDict d => d | _ => [] end
       "timeout" (VStr "3600")))
    (VStr "") (VStr "") (VList []) true
  = Raise TypeError.
Proof. reflexivity. Qed.

Example from_json_helper_unknown_version :
  JSonnetTpuVmTest._from_json_helper (fun r _ => r)
    (VDict (dict_of
      [ ("testName", VStr "t");
        ("accelerator", VDict (dict_of
           [ ("version", VStr "5e"); ("size", VInt 8) ])) ]))
    (VStr "") (VStr "") (VList []) true
  = Raise ValueError.
Proof. reflexivity. Qed.

Section LoadingProperties.

Variable XLMLTEST_CONFIGS : option string.
Variable file_content : string -> option string.
Variable json_decode : string -> result pyval.
Variable float_floordiv : string -> Z -> string.

Local Abbreviation load :=
  (JSonnetTpuVmTestMethods._load_compiled_jsonnet XLMLTEST_CONFIGS
     file_content json_decode).
Local Abbreviation from_jax :=
  (JSonnetTpuVmTestMethods.from_jax XLMLTEST_CONFIGS file_content json_decode
     float_floordiv).
Local Abbreviation from_pytorch :=
  (JSonnetTpuVmTestMethods.from_pytorch XLMLTEST_CONFIGS file_content
     json_decode float_floordiv).

Lemma io_bind_done {A B : Type} (r : io_result A) (k : A -> io_result B)
  (b : B) :
  io_bind r k = Done b -> exists a, r = Done a /\ k a = Done b.
Proof. destruct r; simpl; intros H; try discriminate H. now exists a. Qed.

Lemma io_of_result_done {A : Type} (r : result A) (a : A) :
  io_of_result r = Done a -> r = Ok a.
Proof. destruct r; simpl; intros H; now inversion H. Qed.

(** X8. A test loaded by from_jax runs the 'runTest' of the file through
    [bash -c]: test_command is ['bash', '-c', runTest], exports is empty,
    setup is the 'setup' of the file, and test_script is the three lines
    [set -xue], an empty line, and [bash -c] followed by the quoted
    runTest. *)
Theorem from_jax_result (test_name : string) (reserved_tpu : bool)
  (c : JSonnetTpuVmTest.t) :
  from_jax test_name reserved_tpu = Done c ->
  exists test setup run_test,
    load test_name = Done test
    /\ py_getitem test "setup" = Ok setup
    /\ py_getitem test "runTest" = Ok run_test
    /\ JSonnetTpuVmTest.setup c = setup
    /\ JSonnetTpuVmTest.exports c = VStr ""
    /\ JSonnetTpuVmTest.test_command c
       = VList [VStr "bash"; VStr "-c"; run_test]
    /\ JSonnetTpuVmTestMethods.test_script c
       = (quoted <- shlex_quote run_test ;;
          Ok ("set -xue" ++ newline ++ newline ++ "bash -c " ++ quoted)).
Proof.
  unfold JSonnetTpuVmTestMethods.from_jax. intros H.
  apply io_bind_done in H as (test & Hload & H).
  apply io_of_result_done in H.
  repeat bind_returned H.
  destruct (from_json_helper_result _ _ _ _ _ _ _ H)
    as (_ & _ & _ & _ & _ & _ & _ & Hsetup & Hexports & Hcommand).
  exists test. do 2 eexists.
  do 6 (split; [eassumption |]).
  unfold JSonnetTpuVmTestMethods.test_script.
  rewrite Hexports, Hcommand.
  cbn [py_iter bind JSonnetTpuVmTestMethods.quote_all].
  change (shlex_quote (VStr "bash")) with (Ok (A := string) "bash").
  change (shlex_quote (VStr "-c")) with (Ok (A := string) "-c").
  cbn [bind]. destruct (shlex_quote _) as [quoted|e]; cbn [bind];
    [| reflexivity].
  reflexivity.
Qed.

(** X9. A test loaded by from_pytorch has for setup the
    'tpuVmPytorchSetup' of the file, a line [cd ~], and its
    'tpuVmExtraSetup', both strings; its exports are the 'tpuVmExports'
    and its test_command the 'command' of the file; and its setup_script
    does not raise: it is [set -xue] followed by that setup. *)
Theorem from_pytorch_result (test_name : string) (reserved_tpu : bool)
  (c : JSonnetTpuVmTest.t) :
  from_pytorch test_name reserved_tpu = Done c ->
  exists test settings pytorch_setup extra_setup exports command,
    load test_name = Done test
    /\ py_getitem test "tpuSettings" = Ok settings
    /\ py_getitem settings "tpuVmPytorchSetup" = Ok (VStr pytorch_setup)
    /\ py_getitem settings "tpuVmExtraSetup" = Ok (VStr extra_setup)
    /\ py_getitem settings "tpuVmExports" = Ok exports
    /\ py_getitem test "command" = Ok command
    /\ JSonnetTpuVmTest.setup c
       = VStr (pytorch_setup ++ newline ++ "cd ~" ++ newline ++ extra_setup)
    /\ JSonnetTpuVmTest.exports c = exports
    /\ JSonnetTpuVmTest.test_command c = command
    /\ JSonnetTpuVmTestMethods.setup_script c
       = Ok ("set -xue" ++ newline ++ pytorch_setup ++ newline ++ "cd ~"
             ++ newline ++ extra_setup).
Proof.
  unfold JSonnetTpuVmTestMethods.from_pytorch. intros H.
  apply io_bind_done in H as (test & Hload & H).
  apply io_of_result_done in H.
  repeat bind_returned H.
  match goal with
  | E : py_add_str ?x _ = Ok _ |- _ =>
      destruct x; try discriminate E; cbn [py_add_str] in E;
      injection E as <-
  end.
  match goal with
  | E : py_str_add _ ?x = Ok _ |- _ =>
      destruct x; try discriminate E; cbn [py_str_add] in E;
      injection E as <-
  end.
  destruct (from_json_helper_result _ _ _ _ _ _ _ H)
    as (_ & _ & _ & _ & _ & _ & _ & Hsetup & Hexports & Hcommand).
  exists test. do 5 eexists.
  do 6 (split; [eassumption |]).
  split; [| split; [eassumption | split; [eassumption |]]].
  - rewrite Hsetup. now rewrite !append_assoc.
  - unfold JSonnetTpuVmTestMethods.setup_script. rewrite Hsetup.
    cbn [str_join]. now rewrite !append_assoc.
Qed.

(** X10. The loader reads one file.  A test name that starts with a slash
    is that file, whatever the configuration directory; with
    XLMLTEST_CONFIGS unset, another test name is looked up under
    /home/airflow/gcs/dags/dags/jsonnet; and when the file is not there,
    from_jax and from_pytorch raise FileNotFoundError for its path. *)
Theorem jsonnet_file_read (test_name : string) (reserved_tpu : bool) :
  exists path,
    (starts_with_slash test_name = true -> path = test_name)
    /\ (starts_with_slash test_name = false -> XLMLTEST_CONFIGS = None ->
        path = "/home/airflow/gcs/dags/dags/jsonnet/" ++ test_name)
    /\ (file_content path = None ->
        from_jax test_name reserved_tpu = FileNotFoundError path
        /\ from_pytorch test_name reserved_tpu = FileNotFoundError path)
    /\ (forall text, file_content path = Some text ->
        load test_name = io_of_result (json_loads json_decode text)).
Proof.
  exists (os_path_join
            match XLMLTEST_CONFIGS with
            | Some dir => dir
            | None => "/home/airflow/gcs/dags/dags/jsonnet"
            end test_name).
  split; [| split; [| split; [intros H; split |]]].
  - intros Habs. unfold os_path_join. now rewrite Habs.
  - intros Hrel ->. unfold os_path_join. rewrite Hrel. reflexivity.
  - unfold JSonnetTpuVmTestMethods.from_jax,
      JSonnetTpuVmTestMethods._load_compiled_jsonnet.
    now rewrite H.
  - unfold JSonnetTpuVmTestMethods.from_pytorch,
      JSonnetTpuVmTestMethods._load_compiled_jsonnet.
    now rewrite H.
  - intros text H.
    unfold JSonnetTpuVmTestMethods._load_compiled_jsonnet. now rewrite H.
Qed.

End LoadingProperties.

Lemma from_jax_result_witness :
  exists c test setup run_test,
    JSonnetTpuVmTestMethods.from_jax None files_example
      (fun _ => Ok jsonnet_file_example) (fun r _ => r) "mnist" true = Done c
    /\ JSonnetTpuVmTestMethods._load_compiled_jsonnet None files_example
         (fun _ => Ok jsonnet_file_example) "mnist" = Done test
    /\ py_getitem test "setup" = Ok setup
    /\ py_getitem test "runTest" = Ok run_test
    /\ JSonnetTpuVmTest.setup c = setup
    /\ JSonnetTpuVmTest.exports c = VStr ""
    /\ JSonnetTpuVmTest.test_command c
       = VList [VStr "bash"; VStr "-c"; run_test]
    /\ JSonnetTpuVmTestMethods.test_script c
       = (quoted <- shlex_quote run_test ;;
          Ok ("set -xue" ++ newline ++ newline ++ "bash -c " ++ quoted)).
Proof.
  destruct (JSonnetTpuVmTestMethods.from_jax None files_example
              (fun _ => Ok jsonnet_file_example) (fun r _ => r) "mnist" true)
    as [c|e|p] eqn:E.
  - destruct (from_jax_result _ _ _ _ _ _ _ E)
      as (test & setup & run_test & H).
    exists c, test, setup, run_test. split; [reflexivity | exact H].
  - vm_compute in E. discriminate E.
  - vm_compute in E. discriminate E.
Defined.

Lemma from_pytorch_result_witness :
  exists c,
    JSonnetTpuVmTestMethods.from_pytorch None files_example
      (fun _ => Ok jsonnet_file_example) (fun r _ => r) "mnist" true = Done c
    /\ exists pytorch_setup extra_setup,
         JSonnetTpuVmTestMethods.setup_script c
         = Ok ("set -xue" ++ newline ++ pytorch_setup ++ newline ++ "cd ~"
               ++ newline ++ extra_setup).
Proof.
  destruct (JSonnetTpuVmTestMethods.from_pytorch None files_example
              (fun _ => Ok jsonnet_file_example) (fun r _ => r) "mnist" true)
    as [c|e|p] eqn:E.
  - destruct (from_pytorch_result _ _ _ _ _ _ _ E)
      as (test & settings & ps & es & exports & command & H).
    exists c. split; [reflexivity |]. exists ps, es. apply H.
  - vm_compute in E. discriminate E.
  - vm_compute in E. discriminate E.
Defined.

Example from_jax_test_script :
  match JSonnetTpuVmTestMethods.from_jax None files_example
          (fun _ => Ok jsonnet_file_example) (fun r _ => r) "mnist" true with
  | Done c => JSonnetTpuVmTestMethods.test_script c
  | _ => Raise TypeError
  end
  = Ok ("set -xue" ++ newline ++ newline
        ++ "bash -c 'python3 train.py --steps=10'").
Proof. reflexivity. Qed.

Example shlex_quote_ex :
  (shlex_quote_str "a b", shlex_quote_str "it's", shlex_quote_str "a/b-c.d",
   shlex_quote_str "")
  = ("'a b'", "'it'" ++ dq ++ "'" ++ dq ++ "'s'", "a/b-c.d", "''").
Proof. reflexivity. Qed.

Example os_path_join_ex :
  (os_path_join "/cfg" "t", os_path_join "/cfg/" "t", os_path_join "/cfg" "/t",
   os_path_join "" "t")
  = ("/cfg/t", "/cfg/t", "/t", "t").
Proof. reflexivity. Qed.

(** ** The metrics file of the maxdiffusion builder *)

Lemma str_chars_length (s : string) :
  length (str_chars s) = String.length s.
Proof. induction s as [|c s IH]; simpl; [reflexivity | now rewrite IH]. Qed.

Lemma modify_save_metrics_loop_key_length (keys : list string) :
  (exists key, In key keys /\ String.length key <> 2) ->
  forall metrics, is_ok (_modify_save_metrics_loop keys metrics) = false.
Proof.
  induction keys as [|key rest IH]; intros (bad & Hin & Hlen) metrics.
  - destruct Hin.
  - cbn [_modify_save_metrics_loop].
    destruct (str_chars key) as [|k [|v [|w chars]]] eqn:E; try reflexivity.
    destruct Hin as [-> | Hin].
    + exfalso. apply Hlen. rewrite <- str_chars_length, E. reflexivity.
    + destruct (py_getitem metrics "dimensions") as [dimensions|e];
        cbn [bind]; [| reflexivity].
      destruct dimensions; try reflexivity.
      destruct metrics; try reflexivity.
      apply IH. now exists bad.
Qed.

(** X11. _modify_save_metrics unpacks every key of model_configs into two
    characters, so with a key that is not exactly two characters long it
    raises and writes no file, whatever metrics_file holds and whatever
    the JSON decoder returns. *)
Theorem modify_save_metrics_key_length
  (json_decode : string -> result pyval) (json_dumps : pyval -> string)
  (metrics_file : string) (model_configs : dict) (fs : files) :
  (exists key, dict_has model_configs key = true /\ String.length key <> 2) ->
  is_ok (_modify_save_metrics json_decode json_dumps metrics_file
           model_configs fs) = false.
Proof.
  intros (key & Hhas & Hlen). unfold _modify_save_metrics.
  destruct (json_loads json_decode metrics_file) as [metrics|e];
    cbn [bind]; [| reflexivity].
  assert (Hin : In key (map fst model_configs)).
  { unfold dict_has in Hhas. apply existsb_exists in Hhas as (kv & Hkv & E).
    apply String.eqb_eq in E. subst key. now apply in_map. }
  pose proof (modify_save_metrics_loop_key_length (map fst model_configs)
                (ex_intro _ key (conj Hin Hlen)) metrics) as Hloop.
  destruct (_modify_save_metrics_loop _ _); [discriminate Hloop | reflexivity].
Qed.

Lemma modify_save_metrics_key_length_witness :
  is_ok (_modify_save_metrics
           (fun _ => Ok (VDict (dict_of [("dimensions", VDict [])])))
           (fun _ => "{}") "{}" maxdiffusion_model_configs_example [])
  = false.
Proof.
  apply (modify_save_metrics_key_length
           (fun _ => Ok (VDict (dict_of [("dimensions", VDict [])])))
           (fun _ => "{}") "{}" maxdiffusion_model_configs_example []).
  exists "attention". split; [reflexivity | discriminate].
Defined.

(** With two-character keys the loop does run: the first character of
    each key is stored under "dimensions" with the second as its value. *)
Example modify_save_metrics_two_characters :
  _modify_save_metrics
    (fun _ => Ok (VDict (dict_of [("dimensions", VDict [])])))
    py_repr "{}" (dict_of [("ab", VInt 1); ("cd", VInt 2)]) []
  = Ok [("{}", "{'dimensions': {'a': 'b', 'c': 'd'}}")].
Proof. reflexivity. Qed.

(** X12. run_model_cmds is assigned exactly for the three supported model
    names: for a model_name that is not the string 'SDXL-Base-1.0',
    'SDXL-Lightning' or 'SDXL-ControlNet' the variable is left unbound,
    and for each of the three it holds five commands. *)
Theorem run_model_cmds_bound_iff
  (GCS_OUTPUT : string) (per_device_bat_size attention model_name : pyval) :
  (maxdiffusion_run_model_cmds GCS_OUTPUT per_device_bat_size attention
     model_name = None
   <-> forall s, In s supported_model_names -> model_name <> VStr s)
  /\ (forall cmds,
        maxdiffusion_run_model_cmds GCS_OUTPUT per_device_bat_size attention
          model_name = Some cmds ->
        length cmds = 5).
Proof.
  unfold maxdiffusion_run_model_cmds, py_eq_str. split; [split |].
  - intros H s Hs ->.
    destruct Hs as [<- | [<- | [<- | []]]]; discriminate H.
  - intros H. destruct model_name as [| | | |s| | | |]; try reflexivity.
    destruct (String.eqb_spec s "SDXL-ControlNet") as [-> | _];
      [exfalso; apply (H "SDXL-ControlNet"); simpl; auto |].
    destruct (String.eqb_spec s "SDXL-Lightning") as [-> | _];
      [exfalso; apply (H "SDXL-Lightning"); simpl; auto |].
    destruct (String.eqb_spec s "SDXL-Base-1.0") as [-> | _];
      [exfalso; apply (H "SDXL-Base-1.0"); simpl; auto |].
    reflexivity.
  - intros cmds H. destruct model_name as [| | | |s| | | |];
      try discriminate H.
    destruct (String.eqb s "SDXL-ControlNet");
      [now injection H as <- |].
    destruct (String.eqb s "SDXL-Lightning");
      [now injection H as <- |].
    destruct (String.eqb s "SDXL-Base-1.0");
      [now injection H as <- | discriminate H].
Qed.

(** ** The keyword arguments that [generate_model_configs] passes *)

Section KeywordArguments.

Variable SetupMode : Type.
Variable STABLE : SetupMode.
Variable Task : Type.
Variable config : config_kwargs SetupMode -> result Task.

Ltac call_returned H :=
  cbn [bind read_local] in H;
  lazymatch type of H with
  | bind (bind ?r _) _ = Ok _ =>
      let E := fresh "E" in
      destruct r eqn:E; cbn [bind] in H; [| discriminate H]
  | bind ?r _ = Ok _ =>
      let E := fresh "E" in
      destruct r eqn:E; cbn [bind] in H; [| discriminate H]
  | match (if ?c then _ else _) with _ => _ end = Ok _ =>
      let E := fresh "E" in
      destruct c eqn:E;
      [| cbn [bind read_local] in H; discriminate H]
  | match ?x with _ => _ end = Ok _ =>
      let E := fresh "E" in
      destruct x eqn:E; try discriminate H
  end.

(** What [config] receives, when [generate_model_configs] returns. *)
Lemma generate_model_configs_returned
  prefix name sweep axis_order attention ici_parallelism
  per_device_batch_size request_rate warmup_mode tpu_version tpu_cores
  (t : Task) :
  generate_model_configs SetupMode STABLE Task config prefix name sweep
    axis_order attention ici_parallelism per_device_batch_size request_rate
    warmup_mode tpu_version tpu_cores = Ok t ->
  exists kw run_prefix attention_4 prefill ar,
    config kw = Ok t
    /\ py_getitem sweep "run_prefix" = Ok run_prefix
    /\ py_slice_to 4 attention = Ok attention_4
    /\ py_split_dash axis_order = Ok [prefill; ar]
    /\ kw_test_name _ kw
       = (if py_truthy run_prefix
          then prefix ++ "-" ++ py_str run_prefix else prefix)
         ++ "-" ++ name ++ "-" ++ py_str axis_order ++ "-bs"
         ++ py_str per_device_batch_size ++ "-" ++ py_str attention_4
    /\ map fst (kw_model_configs _ kw) = model_configs_keys
    /\ dict_get (kw_model_configs _ kw) "prefill_key_axis_order"
       = Ok (VStr (str_join "," (str_chars prefill)))
    /\ dict_get (kw_model_configs _ kw) "prefill_value_axis_order"
       = Ok (VStr (str_join "," (str_chars prefill)))
    /\ dict_get (kw_model_configs _ kw) "ar_key_axis_order"
       = Ok (VStr (str_join "," (str_chars ar)))
    /\ dict_get (kw_model_configs _ kw) "ar_value_axis_order"
       = Ok (VStr (str_join "," (str_chars ar)))
    /\ dict_get (kw_model_configs _ kw) "model_config_name" = Ok (VStr name)
    /\ dict_get (kw_model_configs _ kw) "attention" = Ok attention
    /\ dict_get (kw_model_configs _ kw) "per_device_batch_size"
       = Ok per_device_batch_size
    /\ dict_get (kw_model_configs _ kw) "request_rate" = Ok request_rate
    /\ dict_get (kw_model_configs _ kw) "warmup_mode" = Ok warmup_mode.
Proof.
  unfold generate_model_configs, copy_key. intros H.
  repeat call_returned H.
  do 5 eexists. split; [exact H |].
  do 3 (split; [reflexivity |]).
  cbn [kw_test_name kw_model_configs].
  split; [reflexivity |].
  repeat split; vm_compute; reflexivity.
Qed.

(** X13. The model_configs that generate_model_configs hands to [config]
    always has the same thirty keys in the same order, and in it the key
    and value axis orders are equal: prefill_key_axis_order and
    prefill_value_axis_order are both the characters before the dash of
    axis_order joined by commas, ar_key_axis_order and ar_value_axis_order
    both those after the dash. *)
Theorem model_configs_layout
  prefix name sweep axis_order attention ici_parallelism
  per_device_batch_size request_rate warmup_mode tpu_version tpu_cores
  (t : Task) :
  generate_model_configs SetupMode STABLE Task config prefix name sweep
    axis_order attention ici_parallelism per_device_batch_size request_rate
    warmup_mode tpu_version tpu_cores = Ok t ->
  exists kw prefill ar,
    config kw = Ok t
    /\ py_split_dash axis_order = Ok [prefill; ar]
    /\ map fst (kw_model_configs _ kw) = model_configs_keys
    /\ dict_get (kw_model_configs _ kw) "prefill_key_axis_order"
       = Ok (VStr (str_join "," (str_chars prefill)))
    /\ dict_get (kw_model_configs _ kw) "prefill_value_axis_order"
       = Ok (VStr (str_join "," (str_chars prefill)))
    /\ dict_get (kw_model_configs _ kw) "ar_key_axis_order"
       = Ok (VStr (str_join "," (str_chars ar)))
    /\ dict_get (kw_model_configs _ kw) "ar_value_axis_order"
       = Ok (VStr (str_join "," (str_chars ar))).
Proof.
  intros H.
  destruct (generate_model_configs_returned _ _ _ _ _ _ _ _ _ _ _ _ H)
    as (kw & run_prefix & a4 & prefill & ar & Hkw & _ & _ & Hsplit & _
        & Hkeys & Hpk & Hpv & Hak & Hav & _).
  exists kw, prefill, ar. repeat split; assumption.
Qed.

End KeywordArguments.

Lemma model_configs_layout_witness :
  exists kw prefill ar,
    Ok kw
    = generate_model_configs unit tt (config_kwargs unit) Ok
        test_name_prefix "llama2-7b-base-w-b16-kv-b16" sweep_example
        (VStr "2103-2013") (VStr "autoselected")
        (VTuple [VInt 1; VInt 1; VInt (-1)]) (VInt 10) (VFloat "0.0")
        (VStr "full") (VTpuVersion V5E) (VInt 8)
    /\ py_split_dash (VStr "2103-2013") = Ok [prefill; ar]
    /\ map fst (kw_model_configs _ kw) = model_configs_keys
    /\ dict_get (kw_model_configs _ kw) "prefill_key_axis_order"
       = Ok (VStr (str_join "," (str_chars prefill)))
    /\ dict_get (kw_model_configs _ kw) "prefill_value_axis_order"
       = Ok (VStr (str_join "," (str_chars prefill)))
    /\ dict_get (kw_model_configs _ kw) "ar_key_axis_order"
       = Ok (VStr (str_join "," (str_chars ar)))
    /\ dict_get (kw_model_configs _ kw) "ar_value_axis_order"
       = Ok (VStr (str_join "," (str_chars ar))).
Proof.
  destruct (generate_model_configs unit tt (config_kwargs unit) Ok
              test_name_prefix "llama2-7b-base-w-b16-kv-b16" sweep_example
              (VStr "2103-2013") (VStr "autoselected")
              (VTuple [VInt 1; VInt 1; VInt (-1)]) (VInt 10) (VFloat "0.0")
              (VStr "full") (VTpuVersion V5E) (VInt 8)) as [t|e] eqn:E.
  - exact (model_configs_layout unit tt (config_kwargs unit) Ok
             _ _ _ _ _ _ _ _ _ _ _ t E).
  - vm_compute in E. discriminate E.
Defined.

(** X14. The test name that generate_model_configs builds does not tell
    apart two sweep points that differ in ici_parallelism, request_rate,
    warmup_mode, the TPU version and cores, or in the attention beyond its
    first four characters: with the same prefix, configuration, axis_order
    and per_device_batch_size they get the same test_name. *)
Theorem test_name_ignores_part_of_the_sweep (SetupMode : Type)
  (STABLE : SetupMode) prefix name sweep axis_order per_device_batch_size
  attention1 ici1 request_rate1 warmup_mode1 tpu_version1 tpu_cores1
  attention2 ici2 request_rate2 warmup_mode2 tpu_version2 tpu_cores2
  (kw1 kw2 : config_kwargs SetupMode) :
  generate_model_configs SetupMode STABLE _ Ok prefix name sweep axis_order
    attention1 ici1 per_device_batch_size request_rate1 warmup_mode1
    tpu_version1 tpu_cores1 = Ok kw1 ->
  generate_model_configs SetupMode STABLE _ Ok prefix name sweep axis_order
    attention2 ici2 per_device_batch_size request_rate2 warmup_mode2
    tpu_version2 tpu_cores2 = Ok kw2 ->
  py_slice_to 4 attention1 = py_slice_to 4 attention2 ->
  kw_test_name _ kw1 = kw_test_name _ kw2.
Proof.
  intros H1 H2 Hatt.
  destruct (generate_model_configs_returned _ _ _ _ _ _ _ _ _ _ _ _ _ _ _ _ H1)
    as (k1 & rp1 & a1 & _ & _ & Hk1 & Hrp1 & Ha1 & _ & Hn1 & _).
  destruct (generate_model_configs_returned _ _ _ _ _ _ _ _ _ _ _ _ _ _ _ _ H2)
    as (k2 & rp2 & a2 & _ & _ & Hk2 & Hrp2 & Ha2 & _ & Hn2 & _).
  injection Hk1 as ->. injection Hk2 as ->.
  rewrite Hrp1 in Hrp2. injection Hrp2 as <-.
  rewrite Hatt, Ha2 in Ha1. injection Ha1 as <-.
  now rewrite Hn1, Hn2.
Qed.

Lemma test_name_ignores_part_of_the_sweep_witness :
  exists kw1 kw2 : config_kwargs unit,
    kw_model_configs _ kw1 <> kw_model_configs _ kw2
    /\ kw_test_name _ kw1 = kw_test_name _ kw2.
Proof.
  destruct (generate_model_configs unit tt (config_kwargs unit) Ok
              test_name_prefix "llama2-7b-base-w-b16-kv-b16" sweep_example
              (VStr "2103-2013") (VStr "autoselected")
              (VTuple [VInt 1; VInt 1; VInt (-1)]) (VInt 10) (VFloat "0.0")
              (VStr "full") (VTpuVersion V5E) (VInt 8)) as [kw1|e] eqn:E1;
    [| vm_compute in E1; discriminate E1].
  destruct (generate_model_configs unit tt (config_kwargs unit) Ok
              test_name_prefix "llama2-7b-base-w-b16-kv-b16" sweep_example
              (VStr "2103-2013") (VStr "autotuned")
              (VTuple [VInt 1; VInt 2; VInt 4]) (VInt 10) (VFloat "5.0")
              (VStr "sampled") (VTpuVersion V5E) (VInt 4)) as [kw2|e] eqn:E2;
    [| vm_compute in E2; discriminate E2].
  exists kw1, kw2. split.
  - vm_compute in E1, E2. injection E1 as <-. injection E2 as <-.
    cbn [kw_model_configs]. intros H. discriminate H.
  - exact (test_name_ignores_part_of_the_sweep unit tt _ _ _ _ _
             _ _ _ _ _ _ _ _ _ _ _ _ kw1 kw2 E1 E2 eq_refl).
Defined.

(** ** The nested loops over any sweep configuration *)

Lemma map_result_app {A B : Type} (f : A -> result B) (l1 l2 : list A) :
  map_result f (l1 ++ l2)%list
  = (a <- map_result f l1 ;; b <- map_result f l2 ;; Ok (a ++ b)%list).
Proof.
  induction l1 as [|x l1 IH]; simpl.
  - destruct (map_result f l2); reflexivity.
  - destruct (f x); cbn [bind]; [| reflexivity].
    rewrite IH. destruct (map_result f l1); cbn [bind]; [| reflexivity].
    destruct (map_result f l2); reflexivity.
Qed.

Lemma for_each_innermost {A B C : Type} (body : B -> result C) (h : A -> B)
  (l : list A) :
  for_each l (fun x => b <- body (h x) ;; Ok [b])
  = map_result body (map h l).
Proof.
  induction l as [|x l IH]; simpl; [reflexivity |].
  destruct (body (h x)); cbn [bind]; [| reflexivity].
  rewrite IH. destruct (map_result body (map h l)); reflexivity.
Qed.

Lemma for_each_nested {A B C : Type} (body : B -> result C)
  (f : A -> result (list C)) (g : A -> list B) (l : list A) :
  (forall x, f x = map_result body (g x)) ->
  for_each l f = map_result body (flat_map g l).
Proof.
  intros H. induction l as [|x l IH]; simpl; [reflexivity |].
  now rewrite H, IH, map_result_app.
Qed.

Lemma for_in_key_list {B : Type} (sweep : pyval) (k : string)
  (items : list pyval) (body : pyval -> result (list B)) :
  sweep_list sweep k items ->
  for_in_key sweep k body = for_each items body.
Proof.
  intros (v & Hv & Hitems). unfold for_in_key.
  rewrite Hv. cbn [bind]. now rewrite Hitems.
Qed.

Lemma for_each_unpack2 {B C : Type} (body : B -> result C)
  (f : pyval -> pyval -> result (list C)) (g : pyval * pyval -> list B)
  (items : list pyval) (version_cores : list (pyval * pyval)) :
  map_result py_unpack2 items = Ok version_cores ->
  (forall a b, f a b = map_result body (g (a, b))) ->
  for_each items (fun item => ' (a, b) <- py_unpack2 item ;; f a b)
  = map_result body (flat_map g version_cores).
Proof.
  intros Hitems Hf. revert version_cores Hitems.
  induction items as [|item items IH]; simpl; intros vcs Hitems.
  - now injection Hitems as <-.
  - destruct (py_unpack2 item) as [[a b]|e]; cbn [bind] in *;
      [| discriminate Hitems].
    destruct (map_result py_unpack2 items) as [rest|e]; cbn [bind] in *;
      [| discriminate Hitems].
    injection Hitems as <-. simpl.
    now rewrite Hf, (IH rest eq_refl), map_result_app.
Qed.

(** The loops of any sweep configuration, as one iteration. *)
Lemma sweep_loops_as_iteration {B : Type} (sweep : pyval)
  (body : sweep_point -> result B)
  (items : list pyval) (version_cores : list (pyval * pyval))
  (axis_orders attentions ici_parallelisms per_device_batch_sizes
   request_rates warmup_modes : list pyval) :
  sweep_list sweep "tpu_version_cores" items ->
  map_result py_unpack2 items = Ok version_cores ->
  sweep_list sweep "axis_order" axis_orders ->
  sweep_list sweep "attention" attentions ->
  sweep_list sweep "ici_parallelisms" ici_parallelisms ->
  sweep_list sweep "per_device_batch_sizes" per_device_batch_sizes ->
  sweep_list sweep "request_rate" request_rates ->
  sweep_list sweep "warmup_mode" warmup_modes ->
  sweep_loops sweep body
  = map_result body
      (product_points version_cores axis_orders attentions ici_parallelisms
         per_device_batch_sizes request_rates warmup_modes).
Proof.
  intros H1 Hu H2 H3 H4 H5 H6 H7. unfold sweep_loops, product_points.
  rewrite (for_in_key_list _ _ _ _ H1).
  apply (for_each_unpack2 body _ _ _ _ Hu). intros tv tc.
  rewrite (for_in_key_list _ _ _ _ H2). apply for_each_nested. intros ao.
  rewrite (for_in_key_list _ _ _ _ H3). apply for_each_nested. intros att.
  rewrite (for_in_key_list _ _ _ _ H4). apply for_each_nested. intros ici.
  rewrite (for_in_key_list _ _ _ _ H5). apply for_each_nested. intros pdbs.
  rewrite (for_in_key_list _ _ _ _ H6). apply for_each_nested. intros rr.
  rewrite (for_in_key_list _ _ _ _ H7).
  apply (for_each_innermost body
           (fun wm => mk_sweep_point tv tc ao att ici pdbs rr wm)).
Qed.

Lemma length_flat_map_const {A B : Type} (g : A -> list B) (l : list A)
  (n : nat) :
  (forall x, length (g x) = n) -> length (flat_map g l) = length l * n.
Proof.
  intros H. induction l as [|x l IH]; simpl; [reflexivity |].
  now rewrite length_app, H, IH.
Qed.

Lemma product_points_length
  (version_cores : list (pyval * pyval))
  (axis_orders attentions ici_parallelisms per_device_batch_sizes
   request_rates warmup_modes : list pyval) :
  length (product_points version_cores axis_orders attentions
            ici_parallelisms per_device_batch_sizes request_rates
            warmup_modes)
  = length version_cores * (length axis_orders * (length attentions
    * (length ici_parallelisms * (length per_device_batch_sizes
    * (length request_rates * length warmup_modes))))).
Proof.
  unfold product_points.
  repeat (apply length_flat_map_const; intros ?). apply length_map.
Qed.

Lemma product_points_In
  (version_cores : list (pyval * pyval))
  (axis_orders attentions ici_parallelisms per_device_batch_sizes
   request_rates warmup_modes : list pyval) (p : sweep_point) :
  In p (product_points version_cores axis_orders attentions
          ici_parallelisms per_device_batch_sizes request_rates
          warmup_modes)
  <-> In (sp_tpu_version p, sp_tpu_cores p) version_cores
      /\ In (sp_axis_order p) axis_orders
      /\ In (sp_attention p) attentions
      /\ In (sp_ici_parallelism p) ici_parallelisms
      /\ In (sp_per_device_batch_size p) per_device_batch_sizes
      /\ In (sp_request_rate p) request_rates
      /\ In (sp_warmup_mode p) warmup_modes.
Proof.
  unfold product_points. split.
  - intros H.
    repeat (apply in_flat_map in H as (? & ? & H)).
    apply in_map_iff in H as (? & <- & ?).
    cbn [sp_tpu_version sp_tpu_cores sp_axis_order sp_attention
         sp_ici_parallelism sp_per_device_batch_size sp_request_rate
         sp_warmup_mode].
    rewrite <- surjective_pairing. auto 10.
  - intros (H1 & H2 & H3 & H4 & H5 & H6 & H7).
    apply in_flat_map. eexists. split; [exact H1 |].
    apply in_flat_map. eexists. split; [exact H2 |].
    apply in_flat_map. eexists. split; [exact H3 |].
    apply in_flat_map. eexists. split; [exact H4 |].
    apply in_flat_map. eexists. split; [exact H5 |].
    apply in_flat_map. eexists. split; [exact H6 |].
    apply in_map_iff. eexists. split; [| exact H7].
    now destruct p.
Qed.

Lemma map_result_Ok {A : Type} (l : list A) : map_result Ok l = Ok l.
Proof. induction l as [|x l IH]; simpl; [reflexivity | now rewrite IH]. Qed.

(** X15. For every sweep configuration whose seven entries can be iterated
    and whose tpu_version_cores items unpack into pairs, the nested loops
    run the innermost statement once at each element of the Cartesian
    product of the seven lists, in the order of the loops, and stop at the
    first exception that the statement raises. *)
Theorem sweep_loops_visit_product {B : Type} (sweep : pyval)
  (body : sweep_point -> result B)
  (version_cores : list (pyval * pyval))
  (axis_orders attentions ici_parallelisms per_device_batch_sizes
   request_rates warmup_modes : list pyval) :
  sweep_lists sweep version_cores axis_orders attentions ici_parallelisms
    per_device_batch_sizes request_rates warmup_modes ->
  sweep_loops sweep body
  = map_result body
      (product_points version_cores axis_orders attentions ici_parallelisms
         per_device_batch_sizes request_rates warmup_modes).
Proof.
  intros ((items & H1 & Hu) & H2 & H3 & H4 & H5 & H6 & H7).
  now apply (sweep_loops_as_iteration sweep body items).
Qed.

(** X16. When the innermost statement raises nowhere, the loops over such
    a configuration run it as many times as the product of the lengths of
    the seven lists, at the points whose coordinates are each drawn from
    their list and at no other; so a configuration with an empty sweep
    list builds no task. *)
Theorem sweep_loops_count_and_members (sweep : pyval)
  (version_cores : list (pyval * pyval))
  (axis_orders attentions ici_parallelisms per_device_batch_sizes
   request_rates warmup_modes : list pyval) :
  sweep_lists sweep version_cores axis_orders attentions ici_parallelisms
    per_device_batch_sizes request_rates warmup_modes ->
  exists points,
    sweep_loops sweep Ok = Ok points
    /\ length points
       = length version_cores * (length axis_orders * (length attentions
         * (length ici_parallelisms * (length per_device_batch_sizes
         * (length request_rates * length warmup_modes)))))
    /\ forall p,
         In p points
         <-> In (sp_tpu_version p, sp_tpu_cores p) version_cores
             /\ In (sp_axis_order p) axis_orders
             /\ In (sp_attention p) attentions
             /\ In (sp_ici_parallelism p) ici_parallelisms
             /\ In (sp_per_device_batch_size p) per_device_batch_sizes
             /\ In (sp_request_rate p) request_rates
             /\ In (sp_warmup_mode p) warmup_modes.
Proof.
  intros ((items & H1 & Hu) & H2 & H3 & H4 & H5 & H6 & H7).
  eexists. split; [| split].
  - rewrite (sweep_loops_as_iteration sweep Ok items version_cores
               axis_orders attentions ici_parallelisms
               per_device_batch_sizes request_rates warmup_modes)
      by assumption.
    apply map_result_Ok.
  - apply product_points_length.
  - intros p. apply product_points_In.
Qed.

Lemma sweep_lists_example :
  sweep_lists sweep_example [(VTpuVersion V5E, VInt 8)]
    [VStr "2103-2013"; VStr "2013-2013"; VStr "2130-2013"]
    [VStr "autoselected"] [VTuple [VInt 1; VInt 1; VInt (-1)]]
    [VInt 10] [VFloat "0.0"] [VStr "full"].
Proof.
  unfold sweep_lists. split; [| repeat split].
  - exists [VTuple [VTpuVersion V5E; VInt 8]]. split; [| reflexivity].
    eexists. split; vm_compute; reflexivity.
  - eexists. split; vm_compute; reflexivity.
  - eexists. split; vm_compute; reflexivity.
  - eexists. split; vm_compute; reflexivity.
  - eexists. split; vm_compute; reflexivity.
  - eexists. split; vm_compute; reflexivity.
  - eexists. split; vm_compute; reflexivity.
Qed.

Lemma sweep_loops_visit_product_witness :
  sweep_loops sweep_example (fun p => Ok (sp_axis_order p))
  = map_result (fun p => Ok (sp_axis_order p))
      (product_points [(VTpuVersion V5E, VInt 8)]
         [VStr "2103-2013"; VStr "2013-2013"; VStr "2130-2013"]
         [VStr "autoselected"] [VTuple [VInt 1; VInt 1; VInt (-1)]]
         [VInt 10] [VFloat "0.0"] [VStr "full"]).
Proof.
  apply (sweep_loops_visit_product sweep_example
           (fun p => Ok (sp_axis_order p))).
  exact sweep_lists_example.
Defined.

Lemma sweep_loops_count_and_members_witness :
  exists points,
    sweep_loops sweep_example Ok = Ok points /\ length points = 3.
Proof.
  destruct (sweep_loops_count_and_members sweep_example _ _ _ _ _ _ _
              sweep_lists_example) as (points & Hp & Hlen & _).
  exists points. split; [exact Hp | exact Hlen].
Defined.

Example sweep_loops_empty_list :
  sweep_loops (VDict (dict_of [("tpu_version_cores", VList [])]))
    (fun p => Ok p) = Ok [].
Proof. reflexivity. Qed.

Example sweep_loops_missing_key :
  sweep_loops (VDict (dict_of
                 [("tpu_version_cores", VList [VTuple [VTpuVersion V5E; VInt 8]])]))
    (fun p => Ok p) = Raise (KeyError "axis_order").
Proof. reflexivity. Qed.
